(** * MongoPythonAPI: the synchronous and asynchronous pymongo facades

    A shallow embedding of [sync_mongo_api.MongoAPI] and
    [async_mongo_api.AsyncMongoAPI].  Both classes hold a client handle and
    a database name and forward every operation to the pymongo collection
    method of the same purpose.  pymongo itself is an external library: its
    calls are the events of a small free monad, interpreted by a handler
    that the theorems quantify over.  An in-memory handler ([RefDriver])
    instantiates that parameter on concrete inputs. *)

From Stdlib Require Import ZArith String Lia.
From stdpp Require Import gmap strings list.

Set Warnings "-register-all".
Local Open Scope Z_scope.

(** ** Python values *)

(** The objects that callers hand to the facade and that come back from it:
    [None], booleans, integers, strings, [bson.ObjectId]s, lists and dicts.
    A dict keeps its items in insertion order, as Python and BSON do. *)
Inductive value : Type :=
| VNone
| VBool (b : bool)
| VInt (n : Z)
| VStr (s : string)
| VObjectId (oid : N)
| VList (items : list value)
| VDict (items : list (string * value)).

(** A document is the item list of a dict. *)
Definition document : Type := list (string * value).

(** The exceptions that can reach the caller.  [ValueError], [TypeError]
    and [AttributeError] are Python's builtins; [DriverError] stands for any
    exception class of pymongo, named by its class name. *)
Inductive exn : Type :=
| ValueError (msg : string)
| TypeError (msg : string)
| AttributeError (name : string)
| DriverError (cls : string).

(** [len(x)]: defined on lists, dicts and strings, a [TypeError] on the
    other objects.  A string is measured in bytes here and in characters by
    Python; the two agree on which strings are empty, and that is all the
    facade asks of a length. *)
Definition py_len (x : value) : exn + Z :=
  match x with
  | VList items => inr (Z.of_nat (List.length items))
  | VDict items => inr (Z.of_nat (List.length items))
  | VStr s => inr (Z.of_nat (String.length s))
  | _ => inl (TypeError "object has no len()")
  end.

(** [d.get(k)]. *)
Fixpoint get_field (k : string) (d : document) : option value :=
  match d with
  | [] => None
  | (k', v) :: d' => if String.eqb k k' then Some v else get_field k d'
  end.

(** [d[k] = v]: overwrites in place, or appends a new item. *)
Fixpoint set_field (k : string) (v : value) (d : document) : document :=
  match d with
  | [] => [(k, v)]
  | (k', w) :: d' =>
      if String.eqb k k' then (k', v) :: d' else (k', w) :: set_field k v d'
  end.

(** [x in (a, b, ...)] on strings. *)
Fixpoint str_in (x : string) (t : list string) : bool :=
  match t with
  | [] => false
  | y :: t' => if String.eqb x y then true else str_in x t'
  end.

(** The value a parameter takes when the call site leaves it out. *)
Definition default_arg {A : Type} (dflt : A) (given : option A) : A :=
  match given with
  | Some a => a
  | None => dflt
  end.

(** ** The pymongo interface used by the facades *)

Module pymongo.

(** [pymongo.ReturnDocument]. *)
Inductive ReturnDocument : Type := BEFORE | AFTER.

(** A [MongoClient] or [AsyncMongoClient] object. *)
Record client : Type := mkClient { client_handle : N }.

(** [client[name]]: a [Database] object, built anew by each subscript. *)
Record database : Type := mkDatabase { db_client : client; db_name : string }.

(** [db[name]]: a [Collection] object, built anew by each subscript. *)
Record collection : Type :=
  mkCollection { col_database : database; col_name : string }.

Definition client_getitem (cl : client) (name : string) : database :=
  mkDatabase cl name.

Definition database_getitem (db : database) (name : string) : collection :=
  mkCollection db name.

(** A cursor: the documents it has still to yield, in order. *)
Record cursor : Type := mkCursor { remaining : list document }.

Record InsertOneResult : Type := mkInsertOneResult { inserted_id : value }.
Record InsertManyResult : Type :=
  mkInsertManyResult { inserted_ids : list value }.
Record UpdateResult : Type :=
  mkUpdateResult { matched_count : Z; modified_count : Z; upserted_id : value }.
Record DeleteResult : Type := mkDeleteResult { deleted_count : Z }.

(** The driver calls that the two facades make, indexed by the type of
    what the call returns. *)
Inductive call : Type -> Type :=
| MongoClient (uri : string) (kwargs : list (string * value)) : call client
| AsyncMongoClient (uri : string) (kwargs : list (string * value)) : call client
| close (cl : client) : call unit
| find_one (col : collection) (filter projection sort : value)
    : call (option document)
| find (col : collection) (filter projection sort : value) (skip limit : Z)
    : call cursor
| insert_one (col : collection) (doc : value) : call InsertOneResult
| insert_many (col : collection) (documents : value) : call InsertManyResult
| update_one (col : collection) (filter update : value) (upsert : bool)
    : call UpdateResult
| update_many (col : collection) (filter update : value) (upsert : bool)
    : call UpdateResult
| delete_one (col : collection) (filter : value) : call DeleteResult
| delete_many (col : collection) (filter : value) : call DeleteResult
| count_documents (col : collection) (filter : value) : call Z
| aggregate (col : collection) (pipeline : value) : call cursor
| find_one_and_update (col : collection) (filter update projection sort : value)
    (return_document : ReturnDocument) : call (option document).

(** One call, with its return type hidden: an entry of the call log. *)
Definition event : Type := { X : Type & call X }.

Definition ev {X : Type} (c : call X) : event := existT X c.

(** The behaviour of the driver and of the server behind it: each call
    either raises or returns, and moves the state of type [S]. *)
Definition handler (S : Type) : Type :=
  forall X : Type, call X -> S -> (exn + X) * S.

End pymongo.

(** ** Programs over driver calls *)

(** A program makes driver calls until it ends with a value. *)
Inductive prog (A : Type) : Type :=
| Ret (a : A)
| Call {X : Type} (c : pymongo.call X) (k : exn + X -> prog A).

Arguments Ret {A} a.
Arguments Call {A X} c k.

Fixpoint prog_bind {A B : Type} (p : prog A) (f : A -> prog B) : prog B :=
  match p with
  | Ret a => f a
  | Call c k => Call c (fun r => prog_bind (k r) f)
  end.

(** Runs a program against a driver: the value, the final driver state and
    the calls made, oldest first. *)
Fixpoint run {S A : Type} (h : pymongo.handler S) (p : prog A) (s : S)
  : A * S * list pymongo.event :=
  match p with
  | Ret a => (a, s, [])
  | Call c k =>
      let '(r, s1) := h _ c s in
      let '(a, s2, log) := run h (k r) s1 in
      (a, s2, pymongo.ev c :: log)
  end.

(** ** Methods of a facade object *)

(** The attributes of a facade object.  An attribute is absent until
    [__init__] assigns it. *)
Record instance : Type :=
  mkInstance { client : option pymongo.client; db_name : option string }.

Definition new_instance : instance := mkInstance None None.

(** A method body: it reads and writes the attributes of [self], makes
    driver calls, and returns or raises. *)
Definition api (A : Type) : Type := instance -> prog ((exn + A) * instance).

Definition ret {A : Type} (a : A) : api A :=
  fun self => Ret (inr a, self).

Definition raise {A : Type} (e : exn) : api A :=
  fun self => Ret (inl e, self).

Definition bind {A B : Type} (m : api A) (f : A -> api B) : api B :=
  fun self =>
    prog_bind (m self) (fun '(r, self') =>
      match r with
      | inl e => Ret (inl e, self')
      | inr a => f a self'
      end).

(** A driver call; what the driver raises propagates as it is. *)
Definition driver {X : Type} (c : pymongo.call X) : api X :=
  fun self => Call c (fun r => Ret (r, self)).

(** Lifts a Python expression that may raise. *)
Definition lift {A : Type} (r : exn + A) : api A :=
  fun self => Ret (r, self).

Declare Scope api_scope.
Delimit Scope api_scope with api.
Notation "'let*' x ':=' m 'in' k" := (bind m (fun x => k))
  (at level 10, x name, m at level 100, k at level 200) : api_scope.
Notation "'let*' '_' ':=' m 'in' k" := (bind m (fun _ => k))
  (at level 10, m at level 100, k at level 200) : api_scope.

(** [self.client] and [self.db_name]. *)
Definition getattr_client : api pymongo.client :=
  fun self =>
    match client self with
    | Some cl => Ret (inr cl, self)
    | None => Ret (inl (AttributeError "client"), self)
    end.

Definition getattr_db_name : api string :=
  fun self =>
    match db_name self with
    | Some n => Ret (inr n, self)
    | None => Ret (inl (AttributeError "db_name"), self)
    end.

(** [self.client = cl] and [self.db_name = n]. *)
Definition setattr_client (cl : pymongo.client) : api unit :=
  fun self => Ret (inr tt, mkInstance (Some cl) (db_name self)).

Definition setattr_db_name (n : string) : api unit :=
  fun self => Ret (inr tt, mkInstance (client self) (Some n)).

(** [self.client[self.db_name][collection]]. *)
Definition client_db_collection (collection : string) : api pymongo.collection :=
  (let* cl := getattr_client in
   let* dbn := getattr_db_name in
   ret (pymongo.database_getitem (pymongo.client_getitem cl dbn) collection))%api.

(** The f-string of the connection URI. *)
Definition connection_uri (service db_username db_password db_address db_name : string)
  : string :=
  (service +:+ "://" +:+ db_username +:+ ":" +:+ db_password +:+ "@"
   +:+ db_address +:+ "/" +:+ db_name +:+ "?retryWrites=true&w=majority")%string.

(** Conversions of driver results to the objects handed to the caller. *)
Definition of_optional_document (o : option document) : value :=
  match o with
  | Some d => VDict d
  | None => VNone
  end.

(** [list(cursor)]: takes documents off the cursor until it is exhausted,
    appending each to the list under construction. *)
Fixpoint list_of_remaining (acc rest : list document) : list document :=
  match rest with
  | [] => acc
  | d :: rest' => list_of_remaining (acc ++ [d]) rest'
  end.

Definition py_list (cur : pymongo.cursor) : value :=
  VList (map VDict (list_of_remaining [] (pymongo.remaining cur))).

(** [[e async for e in a_cur]]. *)
Fixpoint async_comprehension (rest : list document) : list value :=
  match rest with
  | [] => []
  | e :: rest' => VDict e :: async_comprehension rest'
  end.

Definition py_async_list (a_cur : pymongo.cursor) : value :=
  VList (async_comprehension (pymongo.remaining a_cur)).

Definition is_none (x : value) : bool :=
  match x with
  | VNone => true
  | _ => false
  end.

(** ** The synchronous facade: [sync_mongo_api.MongoAPI] *)

(** An optional parameter is an [option]: [None] when the call site leaves
    it out, so that the first lines of each method apply the defaults of the
    Python signature. *)
Module MongoAPI.

Local Open Scope api_scope.

Definition close : api value :=
  let* cl := getattr_client in
  let* _ := driver (pymongo.close cl) in
  ret VNone.

Definition __init__ (db_address db_name db_username db_password : string)
    (service : option string) (kwargs : list (string * value)) : api value :=
  let service := default_arg "mongodb"%string service in
  if negb (str_in service ["mongodb+srv"; "mongodb"]%string) then
    raise (ValueError "service must be either 'mongodb+srv' or 'mongodb'")
  else
    let* cl := driver (pymongo.MongoClient
                 (connection_uri service db_username db_password db_address db_name)
                 kwargs) in
    let* _ := setattr_client cl in
    let* _ := setattr_db_name db_name in
    ret VNone.

Definition collection (collection : string) : api pymongo.collection :=
  client_db_collection collection.

Definition find_one (collection : string)
    (filter_dict projection_dict sort : option value) : api value :=
  let filter_dict := default_arg VNone filter_dict in
  let projection_dict := default_arg VNone projection_dict in
  let sort := default_arg VNone sort in
  let* col := client_db_collection collection in
  let* r := driver (pymongo.find_one col filter_dict projection_dict sort) in
  ret (of_optional_document r).

Definition find (collection : string)
    (filter_dict projection_dict sort : option value) (skip limit : option Z)
  : api value :=
  let filter_dict := default_arg VNone filter_dict in
  let projection_dict := default_arg VNone projection_dict in
  let sort := default_arg VNone sort in
  let skip := default_arg 0 skip in
  let limit := default_arg 0 limit in
  let* col := client_db_collection collection in
  let* cur := driver (pymongo.find col filter_dict projection_dict sort skip limit) in
  ret (py_list cur).

Definition insert_one (collection : string) (document_dict : option value)
  : api value :=
  let document_dict := default_arg VNone document_dict in
  let document_dict := if is_none document_dict then VDict [] else document_dict in
  let* col := client_db_collection collection in
  let* result := driver (pymongo.insert_one col document_dict) in
  ret (pymongo.inserted_id result).

Definition insert (collection : string) (document_list : option value)
  : api value :=
  let document_list := default_arg VNone document_list in
  let* nothing_to_do :=
    (if is_none document_list then ret true
     else let* n := lift (py_len document_list) in ret (n <? 1)%Z) in
  if nothing_to_do : bool then ret VNone
  else
    let* col := client_db_collection collection in
    let* result := driver (pymongo.insert_many col document_list) in
    ret (VList (pymongo.inserted_ids result)).

Definition update_one (collection : string)
    (filter_dict update_dict : option value) (upsert : option bool) : api value :=
  let filter_dict := default_arg VNone filter_dict in
  let update_dict := default_arg VNone update_dict in
  let upsert := default_arg false upsert in
  let* col := client_db_collection collection in
  let* result := driver (pymongo.update_one col filter_dict update_dict upsert) in
  ret (VInt (pymongo.modified_count result)).

Definition update (collection : string)
    (filter_dict update_dict : option value) (upsert : option bool) : api value :=
  let filter_dict := default_arg VNone filter_dict in
  let update_dict := default_arg VNone update_dict in
  let upsert := default_arg false upsert in
  let* col := client_db_collection collection in
  let* result := driver (pymongo.update_many col filter_dict update_dict upsert) in
  ret (VInt (pymongo.modified_count result)).

Definition delete_one (collection : string) (filter_dict : option value)
  : api value :=
  let filter_dict := default_arg VNone filter_dict in
  let* col := client_db_collection collection in
  let* result := driver (pymongo.delete_one col filter_dict) in
  ret (VInt (pymongo.deleted_count result)).

Definition delete (collection : string) (filter_dict : option value)
  : api value :=
  let filter_dict := default_arg VNone filter_dict in
  let* col := client_db_collection collection in
  let* result := driver (pymongo.delete_many col filter_dict) in
  ret (VInt (pymongo.deleted_count result)).

Definition count (collection : string) (filter_dict : option value)
  : api value :=
  let filter_dict := default_arg VNone filter_dict in
  let filter_dict := if is_none filter_dict then VDict [] else filter_dict in
  let* col := client_db_collection collection in
  let* n := driver (pymongo.count_documents col filter_dict) in
  ret (VInt n).

Definition aggregate (collection : string) (pipeline : option value)
  : api value :=
  let pipeline := default_arg VNone pipeline in
  let pipeline := if is_none pipeline then VList [] else pipeline in
  let* col := client_db_collection collection in
  let* cur := driver (pymongo.aggregate col pipeline) in
  ret (py_list cur).

Definition find_one_and_update (collection : string) (update_dict : value)
    (filter_dict projection_dict sort : option value)
    (return_document : option pymongo.ReturnDocument) : api value :=
  let filter_dict := default_arg VNone filter_dict in
  let projection_dict := default_arg VNone projection_dict in
  let sort := default_arg VNone sort in
  let return_document := default_arg pymongo.AFTER return_document in
  let filter_dict := if is_none filter_dict then VDict [] else filter_dict in
  let* col := client_db_collection collection in
  let* result := driver (pymongo.find_one_and_update col filter_dict update_dict
                           projection_dict sort return_document) in
  ret (of_optional_document result).

End MongoAPI.

(** ** The asynchronous facade: [async_mongo_api.AsyncMongoAPI] *)

(** In the asynchronous client, [find] is a plain method that hands back a
    cursor, and the other collection methods, and [close] of the client,
    are coroutine functions: calling one makes a coroutine object and
    sends nothing; the driver call is made when the coroutine is awaited.
    Where the source writes [await], the method body below makes the
    driver call.  Where it does not, the coroutine object is all there
    is. *)
Inductive coroutine (X : Type) : Type :=
| Coroutine (c : pymongo.call X).

Arguments Coroutine {X} c.

(** [[e async for e in x]] with [x] a coroutine object: a coroutine has no
    [__aiter__], so the comprehension raises before it yields anything. *)
Definition async_for_coroutine {X : Type} (x : coroutine X) : api value :=
  raise (TypeError "'async for' requires an object with __aiter__ method, got coroutine").

Module AsyncMongoAPI.

Local Open Scope api_scope.

(** [self.client.close()] in a plain [def], without [await]: the coroutine
    object is dropped, so nothing is closed and no driver call is made. *)
Definition close : api value :=
  let* cl := getattr_client in
  let _ := Coroutine (pymongo.close cl) in
  ret VNone.

Definition __init__ (db_address db_name db_username db_password : string)
    (service : option string) (kwargs : list (string * value)) : api value :=
  let service := default_arg "mongodb"%string service in
  if negb (str_in service ["mongodb+srv"; "mongodb"]%string) then
    raise (ValueError "service must be either 'mongodb+srv' or 'mongodb'")
  else
    let* cl := driver (pymongo.AsyncMongoClient
                 (connection_uri service db_username db_password db_address db_name)
                 kwargs) in
    let* _ := setattr_client cl in
    let* _ := setattr_db_name db_name in
    ret VNone.

Definition collection (collection : string) : api pymongo.collection :=
  let* cl := getattr_client in
  let* dbn := getattr_db_name in
  ret (pymongo.database_getitem (pymongo.client_getitem cl dbn) collection).

Definition find_one (collection : string)
    (filter_dict projection_dict sort : option value) : api value :=
  let filter_dict := default_arg VNone filter_dict in
  let projection_dict := default_arg VNone projection_dict in
  let sort := default_arg VNone sort in
  let* col := AsyncMongoAPI.collection collection in
  let* r := driver (pymongo.find_one col filter_dict projection_dict sort) in
  ret (of_optional_document r).

Definition find (collection : string)
    (filter_dict projection_dict sort : option value) (skip limit : option Z)
  : api value :=
  let filter_dict := default_arg VNone filter_dict in
  let projection_dict := default_arg VNone projection_dict in
  let sort := default_arg VNone sort in
  let skip := default_arg 0 skip in
  let limit := default_arg 0 limit in
  let* col := AsyncMongoAPI.collection collection in
  let* a_cur := driver (pymongo.find col filter_dict projection_dict sort skip limit) in
  ret (py_async_list a_cur).

Definition insert_one (collection : string) (document_dict : option value)
  : api value :=
  let document_dict := default_arg VNone document_dict in
  let document_dict := if is_none document_dict then VDict [] else document_dict in
  let* col := AsyncMongoAPI.collection collection in
  let* result := driver (pymongo.insert_one col document_dict) in
  ret (pymongo.inserted_id result).

Definition insert (collection : string) (document_list : option value)
  : api value :=
  let document_list := default_arg VNone document_list in
  let* nothing_to_do :=
    (if is_none document_list then ret true
     else let* n := lift (py_len document_list) in ret (n <? 1)%Z) in
  if nothing_to_do : bool then ret (VList [])
  else
    let* col := AsyncMongoAPI.collection collection in
    let* result := driver (pymongo.insert_many col document_list) in
    ret (VList (pymongo.inserted_ids result)).

Definition update_one (collection : string)
    (filter_dict update_dict : option value) (upsert : option bool) : api value :=
  let filter_dict := default_arg VNone filter_dict in
  let update_dict := default_arg VNone update_dict in
  let upsert := default_arg false upsert in
  let* col := AsyncMongoAPI.collection collection in
  let* result := driver (pymongo.update_one col filter_dict update_dict upsert) in
  ret (VInt (pymongo.modified_count result)).

Definition update (collection : string)
    (filter_dict update_dict : option value) (upsert : option bool) : api value :=
  let filter_dict := default_arg VNone filter_dict in
  let update_dict := default_arg VNone update_dict in
  let upsert := default_arg false upsert in
  let* col := AsyncMongoAPI.collection collection in
  let* result := driver (pymongo.update_many col filter_dict update_dict upsert) in
  ret (VInt (pymongo.modified_count result)).

Definition delete_one (collection : string) (filter_dict : option value)
  : api value :=
  let filter_dict := default_arg VNone filter_dict in
  let* col := AsyncMongoAPI.collection collection in
  let* result := driver (pymongo.delete_one col filter_dict) in
  ret (VInt (pymongo.deleted_count result)).

Definition delete (collection : string) (filter_dict : option value)
  : api value :=
  let filter_dict := default_arg VNone filter_dict in
  let* col := AsyncMongoAPI.collection collection in
  let* result := driver (pymongo.delete_many col filter_dict) in
  ret (VInt (pymongo.deleted_count result)).

Definition count (collection : string) (filter_dict : option value)
  : api value :=
  let filter_dict := default_arg VNone filter_dict in
  let filter_dict := if is_none filter_dict then VDict [] else filter_dict in
  let* col := AsyncMongoAPI.collection collection in
  let* n := driver (pymongo.count_documents col filter_dict) in
  ret (VInt n).

Definition aggregate (collection : string) (pipeline : option value)
  : api value :=
  let pipeline := default_arg VNone pipeline in
  let pipeline := if is_none pipeline then VList [] else pipeline in
  let* col := AsyncMongoAPI.collection collection in
  let a_cur := Coroutine (pymongo.aggregate col pipeline) in
  async_for_coroutine a_cur.

Definition find_one_and_update (collection : string) (update_dict : value)
    (filter_dict projection_dict sort : option value)
    (return_document : option pymongo.ReturnDocument) : api value :=
  let filter_dict := default_arg VNone filter_dict in
  let projection_dict := default_arg VNone projection_dict in
  let sort := default_arg VNone sort in
  let return_document := default_arg pymongo.AFTER return_document in
  let filter_dict := if is_none filter_dict then VDict [] else filter_dict in
  let* col := client_db_collection collection in
  let* result := driver (pymongo.find_one_and_update col filter_dict update_dict
                           projection_dict sort return_document) in
  ret (of_optional_document result).

End AsyncMongoAPI.

(** ** Calling a method by name *)

Inductive flavour : Type := Sync | Async.

(** A call of one of the public methods, with the arguments of the call
    site. *)
Inductive method_call : Type :=
| call_find_one (collection : string) (filter_dict projection_dict sort : option value)
| call_find (collection : string) (filter_dict projection_dict sort : option value)
    (skip limit : option Z)
| call_insert_one (collection : string) (document_dict : option value)
| call_insert (collection : string) (document_list : option value)
| call_update_one (collection : string) (filter_dict update_dict : option value)
    (upsert : option bool)
| call_update (collection : string) (filter_dict update_dict : option value)
    (upsert : option bool)
| call_delete_one (collection : string) (filter_dict : option value)
| call_delete (collection : string) (filter_dict : option value)
| call_count (collection : string) (filter_dict : option value)
| call_aggregate (collection : string) (pipeline : option value)
| call_find_one_and_update (collection : string) (update_dict : value)
    (filter_dict projection_dict sort : option value)
    (return_document : option pymongo.ReturnDocument).

Definition invoke (fl : flavour) (m : method_call) : api value :=
  match fl, m with
  | Sync, call_find_one c f p s => MongoAPI.find_one c f p s
  | Sync, call_find c f p s sk li => MongoAPI.find c f p s sk li
  | Sync, call_insert_one c d => MongoAPI.insert_one c d
  | Sync, call_insert c l => MongoAPI.insert c l
  | Sync, call_update_one c f u up => MongoAPI.update_one c f u up
  | Sync, call_update c f u up => MongoAPI.update c f u up
  | Sync, call_delete_one c f => MongoAPI.delete_one c f
  | Sync, call_delete c f => MongoAPI.delete c f
  | Sync, call_count c f => MongoAPI.count c f
  | Sync, call_aggregate c p => MongoAPI.aggregate c p
  | Sync, call_find_one_and_update c u f p s rd =>
      MongoAPI.find_one_and_update c u f p s rd
  | Async, call_find_one c f p s => AsyncMongoAPI.find_one c f p s
  | Async, call_find c f p s sk li => AsyncMongoAPI.find c f p s sk li
  | Async, call_insert_one c d => AsyncMongoAPI.insert_one c d
  | Async, call_insert c l => AsyncMongoAPI.insert c l
  | Async, call_update_one c f u up => AsyncMongoAPI.update_one c f u up
  | Async, call_update c f u up => AsyncMongoAPI.update c f u up
  | Async, call_delete_one c f => AsyncMongoAPI.delete_one c f
  | Async, call_delete c f => AsyncMongoAPI.delete c f
  | Async, call_count c f => AsyncMongoAPI.count c f
  | Async, call_aggregate c p => AsyncMongoAPI.aggregate c p
  | Async, call_find_one_and_update c u f p s rd =>
      AsyncMongoAPI.find_one_and_update c u f p s rd
  end.

(** The two further public methods, which return no document value. *)
Definition invoke_collection (fl : flavour) (c : string) : api pymongo.collection :=
  match fl with
  | Sync => MongoAPI.collection c
  | Async => AsyncMongoAPI.collection c
  end.

Definition invoke_close (fl : flavour) : api value :=
  match fl with
  | Sync => MongoAPI.close
  | Async => AsyncMongoAPI.close
  end.

Definition invoke_init (fl : flavour)
    (db_address db_name db_username db_password : string)
    (service : option string) (kwargs : list (string * value)) : api value :=
  match fl with
  | Sync => MongoAPI.__init__ db_address db_name db_username db_password service kwargs
  | Async =>
      AsyncMongoAPI.__init__ db_address db_name db_username db_password service kwargs
  end.

(** The collection name a method call is about. *)
Definition collection_of (m : method_call) : string :=
  match m with
  | call_find_one c _ _ _ | call_find c _ _ _ _ _ | call_insert_one c _
  | call_insert c _ | call_update_one c _ _ _ | call_update c _ _ _
  | call_delete_one c _ | call_delete c _ | call_count c _ | call_aggregate c _
  | call_find_one_and_update c _ _ _ _ _ => c
  end.

(** The collection handle a logged driver call was made on, if it was made
    on one. *)
Definition event_collection (e : pymongo.event) : option pymongo.collection :=
  match projT2 e with
  | pymongo.MongoClient _ _ | pymongo.AsyncMongoClient _ _ | pymongo.close _ => None
  | pymongo.find_one col _ _ _ | pymongo.find col _ _ _ _ _
  | pymongo.insert_one col _ | pymongo.insert_many col _
  | pymongo.update_one col _ _ _ | pymongo.update_many col _ _ _
  | pymongo.delete_one col _ | pymongo.delete_many col _
  | pymongo.count_documents col _ | pymongo.aggregate col _
  | pymongo.find_one_and_update col _ _ _ _ _ => Some col
  end.

(** Running a method on an object [self] against a driver in state [s]. *)
Definition run_method {S A : Type} (h : pymongo.handler S) (m : api A)
    (self : instance) (s : S) : (exn + A) * instance * S * list pymongo.event :=
  run h (m self) s.

Definition outcome {S A : Type} (r : (exn + A) * instance * S * list pymongo.event)
  : exn + A := r.1.1.1.

Definition final_self {S A : Type} (r : (exn + A) * instance * S * list pymongo.event)
  : instance := r.1.1.2.

Definition final_state {S A : Type} (r : (exn + A) * instance * S * list pymongo.event)
  : S := r.1.2.

Definition calls {S A : Type} (r : (exn + A) * instance * S * list pymongo.event)
  : list pymongo.event := r.2.

(** ** A reference driver *)

(** pymongo and the server are not part of the sources.  [RefDriver] is an
    in-memory stand-in for them, used to instantiate the handler that the
    theorems quantify over.  It covers equality filters, [$set] updates and
    the empty pipeline, and follows pymongo in what it checks before a
    request leaves the client: [find] and [find_one] read an absent filter
    as the empty one, and [find_one] any other filter that is not a mapping
    as a value of [_id], whereas the write calls and [find_one_and_update]
    reject a filter that is not a mapping with a [TypeError].  What only
    the server would refuse is an [OperationFailure]; what lies outside the
    fragment is answered with [NotImplementedError]. *)
Module RefDriver.

Fixpoint value_eqb (a b : value) : bool :=
  match a, b with
  | VNone, VNone => true
  | VBool x, VBool y => Bool.eqb x y
  | VInt x, VInt y => Z.eqb x y
  | VStr x, VStr y => String.eqb x y
  | VObjectId x, VObjectId y => N.eqb x y
  | VList xs, VList ys =>
      (fix go (xs ys : list value) : bool :=
         match xs, ys with
         | [], [] => true
         | x :: xs', y :: ys' => value_eqb x y && go xs' ys'
         | _, _ => false
         end) xs ys
  | VDict xs, VDict ys =>
      (fix go (xs ys : list (string * value)) : bool :=
         match xs, ys with
         | [], [] => true
         | (k, x) :: xs', (k', y) :: ys' =>
             String.eqb k k' && value_eqb x y && go xs' ys'
         | _, _ => false
         end) xs ys
  | _, _ => false
  end.

Definition doc_eqb (a b : document) : bool := value_eqb (VDict a) (VDict b).

(** An equality filter matches a document that has every field of the
    filter with an equal value. *)
Definition matches (f d : document) : bool :=
  forallb (fun '(k, v) =>
             match get_field k d with
             | Some w => value_eqb v w
             | None => false
             end) f.

(** The server: the documents of each namespace in the order stored, the
    next ObjectId to hand out and the next client handle. *)
Record server : Type :=
  mkServer { store : gmap (string * string) (list document);
             next_oid : N;
             next_client : N }.

Definition empty_server : server := mkServer ∅ 0%N 0%N.

Definition namespace (col : pymongo.collection) : string * string :=
  (pymongo.db_name (pymongo.col_database col), pymongo.col_name col).

Definition docs_of (s : server) (col : pymongo.collection) : list document :=
  default [] (store s !! namespace col).

Definition set_docs (s : server) (col : pymongo.collection) (docs : list document)
  : server :=
  mkServer (<[namespace col := docs]> (store s)) (next_oid s) (next_client s).

Definition not_implemented : exn := DriverError "NotImplementedError".

Definition operation_failure : exn := DriverError "OperationFailure".

(** [common.validate_is_mapping("filter", ...)]. *)
Definition mapping_filter (filter : value) : exn + document :=
  match filter with
  | VDict f => inr f
  | _ => inl (TypeError "filter must be an instance of dict")
  end.

(** The filter of a query: [None] stands for the empty filter. *)
Definition query_filter (filter : value) : exn + document :=
  match filter with
  | VNone => inr []
  | _ => mapping_filter filter
  end.

(** [find_one(x)] with [x] neither [None] nor a mapping looks for the
    document whose [_id] is [x]. *)
Definition id_shorthand (filter : value) : value :=
  match filter with
  | VNone | VDict _ => filter
  | other => VDict [("_id"%string, other)]
  end.

(** The only update document covered: [{"$set": {...}}]. *)
Definition set_fields (update : value) : exn + document :=
  match update with
  | VDict [("$set"%string, VDict fields)] => inr fields
  | VNone => inl (TypeError "update must be a mapping or a list")
  | _ => inl not_implemented
  end.

Definition apply_set (fields : document) (d : document) : document :=
  fold_left (fun acc '(k, v) => set_field k v acc) fields d.

Definition unsupported (v : value) : bool := negb (is_none v).

Definition has_id (id : value) (d : document) : bool :=
  match get_field "_id" d with
  | Some w => value_eqb id w
  | None => false
  end.

(** Stores one document, giving it a fresh [_id] when it has none. *)
Definition store_one (col : pymongo.collection) (doc : value) (s : server)
  : (exn + value) * server :=
  match doc with
  | VDict d =>
      let '(id, stored, s1) :=
        match get_field "_id" d with
        | Some id => (id, d, s)
        | None =>
            let id := VObjectId (next_oid s) in
            (id, ("_id"%string, id) :: d,
             mkServer (store s) (next_oid s + 1)%N (next_client s))
        end in
      if existsb (has_id id) (docs_of s1 col)
      then (inl (DriverError "DuplicateKeyError"), s1)
      else (inr id, set_docs s1 col (docs_of s1 col ++ [stored]))
  | _ => (inl (TypeError "document must be an instance of dict"), s)
  end.

(** An ordered bulk insert: stops at the first document that fails. *)
Fixpoint store_many (col : pymongo.collection) (docs : list value) (s : server)
  : (exn + list value) * server :=
  match docs with
  | [] => (inr [], s)
  | d :: docs' =>
      match store_one col d s with
      | (inl (DriverError _), s1) => (inl (DriverError "BulkWriteError"), s1)
      | (inl e, s1) => (inl e, s1)
      | (inr id, s1) =>
          match store_many col docs' s1 with
          | (inl e, s2) => (inl e, s2)
          | (inr ids, s2) => (inr (id :: ids), s2)
          end
      end
  end.

(** Rewrites the matching documents, at most one when [many] is false:
    the documents after the update, how many matched and how many
    changed. *)
Fixpoint update_docs (many : bool) (f fields : document) (docs : list document)
  : list document * Z * Z :=
  match docs with
  | [] => ([], 0, 0)
  | d :: docs' =>
      if matches f d then
        let d' := apply_set fields d in
        let changed := if doc_eqb d d' then 0 else 1 in
        if many then
          let '(rest, matched, modified) := update_docs many f fields docs' in
          (d' :: rest, 1 + matched, changed + modified)
        else (d' :: docs', 1, changed)
      else
        let '(rest, matched, modified) := update_docs many f fields docs' in
        (d :: rest, matched, modified)
  end.

(** Removes the matching documents, at most one when [many] is false. *)
Fixpoint delete_docs (many : bool) (f : document) (docs : list document)
  : list document * Z :=
  match docs with
  | [] => ([], 0)
  | d :: docs' =>
      if matches f d then
        if many then
          let '(rest, n) := delete_docs many f docs' in (rest, 1 + n)
        else (docs', 1)
      else
        let '(rest, n) := delete_docs many f docs' in (d :: rest, n)
  end.

(** [skip] and [limit] of a query; a limit of zero is no limit. *)
Definition window (skip limit : Z) (docs : list document) : list document :=
  let rest := drop (Z.to_nat skip) docs in
  if (limit =? 0)%Z then rest else take (Z.to_nat (Z.abs limit)) rest.

Definition do_update (many : bool) (col : pymongo.collection)
    (filter update : value) (upsert : bool) (s : server)
  : (exn + pymongo.UpdateResult) * server :=
  match mapping_filter filter, set_fields update with
  | inl e, _ => (inl e, s)
  | _, inl e => (inl e, s)
  | inr f, inr fields =>
      let '(docs', matched, modified) := update_docs many f fields (docs_of s col) in
      if upsert && (matched =? 0)%Z then (inl not_implemented, s)
      else (inr (pymongo.mkUpdateResult matched modified VNone),
            set_docs s col docs')
  end.

Definition do_delete (many : bool) (col : pymongo.collection) (filter : value)
    (s : server) : (exn + pymongo.DeleteResult) * server :=
  match mapping_filter filter with
  | inl e => (inl e, s)
  | inr f =>
      let '(docs', n) := delete_docs many f (docs_of s col) in
      (inr (pymongo.mkDeleteResult n), set_docs s col docs')
  end.

Definition do_find (col : pymongo.collection) (filter projection sort : value)
    (skip limit : Z) (s : server) : exn + list document :=
  match query_filter filter with
  | inl e => inl e
  | inr f =>
      if unsupported projection || unsupported sort then inl not_implemented
      else if (skip <? 0)%Z then inl operation_failure
      else inr (window skip limit (List.filter (matches f) (docs_of s col)))
  end.

Definition do_find_one_and_update (col : pymongo.collection)
    (filter update projection sort : value) (rd : pymongo.ReturnDocument)
    (s : server) : (exn + option document) * server :=
  match mapping_filter filter, set_fields update with
  | inl e, _ => (inl e, s)
  | _, inl e => (inl e, s)
  | inr f, inr fields =>
      if unsupported projection || unsupported sort then (inl not_implemented, s)
      else
        match List.filter (matches f) (docs_of s col) with
        | [] => (inr None, s)
        | d :: _ =>
            let '(docs', _, _) := update_docs false f fields (docs_of s col) in
            (inr (Some match rd with
                       | pymongo.BEFORE => d
                       | pymongo.AFTER => apply_set fields d
                       end),
             set_docs s col docs')
        end
  end.

Definition new_client (s : server) : (exn + pymongo.client) * server :=
  (inr (pymongo.mkClient (next_client s)),
   mkServer (store s) (next_oid s) (next_client s + 1)%N).

Definition handle : pymongo.handler server :=
  fun X c =>
    match c in pymongo.call X return server -> (exn + X) * server with
    | pymongo.MongoClient _ _ => new_client
    | pymongo.AsyncMongoClient _ _ => new_client
    | pymongo.close _ => fun s => (inr tt, s)
    | pymongo.find_one col filter projection sort => fun s =>
        match do_find col (id_shorthand filter) projection sort 0 0 s with
        | inl e => (inl e, s)
        | inr docs => (inr (head docs), s)
        end
    | pymongo.find col filter projection sort skip limit => fun s =>
        match do_find col filter projection sort skip limit s with
        | inl e => (inl e, s)
        | inr docs => (inr (pymongo.mkCursor docs), s)
        end
    | pymongo.insert_one col doc => fun s =>
        match store_one col doc s with
        | (inl e, s1) => (inl e, s1)
        | (inr id, s1) => (inr (pymongo.mkInsertOneResult id), s1)
        end
    | pymongo.insert_many col documents => fun s =>
        match documents with
        | VList (d :: docs) =>
            match store_many col (d :: docs) s with
            | (inl e, s1) => (inl e, s1)
            | (inr ids, s1) => (inr (pymongo.mkInsertManyResult ids), s1)
            end
        | _ => (inl (TypeError "documents must be a non-empty list"), s)
        end
    | pymongo.update_one col filter update upsert =>
        do_update false col filter update upsert
    | pymongo.update_many col filter update upsert =>
        do_update true col filter update upsert
    | pymongo.delete_one col filter => do_delete false col filter
    | pymongo.delete_many col filter => do_delete true col filter
    | pymongo.count_documents col filter => fun s =>
        match filter with
        | VDict f =>
            (inr (Z.of_nat (List.length (List.filter (matches f) (docs_of s col)))), s)
        | _ => (inl operation_failure, s)
        end
    | pymongo.aggregate col pipeline => fun s =>
        match pipeline with
        | VList [] => (inr (pymongo.mkCursor (docs_of s col)), s)
        | _ => (inl not_implemented, s)
        end
    | pymongo.find_one_and_update col filter update projection sort rd =>
        do_find_one_and_update col filter update projection sort rd
    end.

End RefDriver.

(** ** What the specification calls things *)

(** The specification's [InvalidConfiguration] is the [ValueError] that
    [__init__] raises. *)
Definition InvalidConfiguration : exn :=
  ValueError "service must be either 'mongodb+srv' or 'mongodb'".

(** The call that builds the client of each facade. *)
Definition client_constructor (fl : flavour) (uri : string)
    (kwargs : list (string * value)) : pymongo.call pymongo.client :=
  match fl with
  | Sync => pymongo.MongoClient uri kwargs
  | Async => pymongo.AsyncMongoClient uri kwargs
  end.

(** The collection handle that [self.client[self.db_name][name]] denotes,
    when both attributes are set. *)
Definition derived_collection (self : instance) (name : string)
  : option pymongo.collection :=
  match client self, db_name self with
  | Some cl, Some dbn =>
      Some (pymongo.database_getitem (pymongo.client_getitem cl dbn) name)
  | _, _ => None
  end.

(** What a facade returns from [insert] when there is nothing to insert. *)
Definition empty_result (fl : flavour) : value :=
  match fl with
  | Sync => VNone
  | Async => VList []
  end.

(** Whether [insert] returns before reaching the driver. *)
Definition nothing_to_insert (document_list : option value) : bool :=
  match default_arg VNone document_list with
  | VNone => true
  | other =>
      match py_len other with
      | inr n => (n <? 1)%Z
      | inl _ => false
      end
  end.

(** What the driver result of a call turns into at the caller. *)
Definition returned {X : Type} (to_value : X -> value) (r : exn + X) : exn + value :=
  match r with
  | inl e => inl e
  | inr x => inr (to_value x)
  end.

(** Python's [==] on dicts: the same keys with equal values, whatever the
    order of the items. *)
Definition dict_eq (a b : document) : Prop :=
  forall k : string, get_field k a = get_field k b.

(** *** The forwarding contract *)

(** The specification describes every operation as one forwarded driver
    call whose result is unwrapped into a plain value.  [forwarding] states
    that contract operation by operation, in the specification's words; the
    facades are compared with it in [run_invoke]. *)
Record forwarded : Type :=
  mkForwarded { fw_type : Type;
                fw_call : pymongo.call fw_type;
                fw_value : fw_type -> value }.

Definition all_documents (cur : pymongo.cursor) : value :=
  VList (map VDict (pymongo.remaining cur)).

Definition or_empty (empty given : value) : value :=
  if is_none given then empty else given.

Definition forwarding (col : pymongo.collection) (m : method_call) : forwarded :=
  match m with
  | call_find_one _ f p s =>
      mkForwarded _
        (pymongo.find_one col (default_arg VNone f) (default_arg VNone p)
           (default_arg VNone s))
        of_optional_document
  | call_find _ f p s sk li =>
      mkForwarded _
        (pymongo.find col (default_arg VNone f) (default_arg VNone p)
           (default_arg VNone s) (default_arg 0 sk) (default_arg 0 li))
        all_documents
  | call_insert_one _ d =>
      mkForwarded _
        (pymongo.insert_one col (or_empty (VDict []) (default_arg VNone d)))
        pymongo.inserted_id
  | call_insert _ l =>
      mkForwarded _
        (pymongo.insert_many col (default_arg VNone l))
        (fun r => VList (pymongo.inserted_ids r))
  | call_update_one _ f u up =>
      mkForwarded _
        (pymongo.update_one col (default_arg VNone f) (default_arg VNone u)
           (default_arg false up))
        (fun r => VInt (pymongo.modified_count r))
  | call_update _ f u up =>
      mkForwarded _
        (pymongo.update_many col (default_arg VNone f) (default_arg VNone u)
           (default_arg false up))
        (fun r => VInt (pymongo.modified_count r))
  | call_delete_one _ f =>
      mkForwarded _
        (pymongo.delete_one col (default_arg VNone f))
        (fun r => VInt (pymongo.deleted_count r))
  | call_delete _ f =>
      mkForwarded _
        (pymongo.delete_many col (default_arg VNone f))
        (fun r => VInt (pymongo.deleted_count r))
  | call_count _ f =>
      mkForwarded _
        (pymongo.count_documents col (or_empty (VDict []) (default_arg VNone f)))
        VInt
  | call_aggregate _ p =>
      mkForwarded _
        (pymongo.aggregate col (or_empty (VList []) (default_arg VNone p)))
        all_documents
  | call_find_one_and_update _ u f p s rd =>
      mkForwarded _
        (pymongo.find_one_and_update col (or_empty (VDict []) (default_arg VNone f)) u
           (default_arg VNone p) (default_arg VNone s)
           (default_arg pymongo.AFTER rd))
        of_optional_document
  end.

(** The one operation that can end before it reaches the driver: [insert],
    on an absent or empty list, or on an object without a length. *)
Definition returns_early (fl : flavour) (m : method_call) : option (exn + value) :=
  match m with
  | call_insert _ l =>
      match default_arg VNone l with
      | VNone => Some (inr (empty_result fl))
      | other =>
          match py_len other with
          | inl e => Some (inl e)
          | inr n => if (n <? 1)%Z then Some (inr (empty_result fl)) else None
          end
      end
  | _ => None
  end.

(** The one operation that departs from the contract: [aggregate] of the
    asynchronous facade never awaits the driver's coroutine, and iterating
    over the coroutine object raises, once the attributes of the object
    have been read and before anything is sent. *)
Definition fails_unawaited (fl : flavour) (m : method_call) : option exn :=
  match m with
  | call_aggregate _ _ =>
      match fl with
      | Async =>
          Some (TypeError
                  "'async for' requires an object with __aiter__ method, got coroutine")
      | Sync => None
      end
  | _ => None
  end.

(** What the contract makes of a method call on [self] against a driver in
    state [s]. *)
Definition contract {S : Type} (h : pymongo.handler S) (fl : flavour)
    (m : method_call) (self : instance) (s : S)
  : (exn + value) * instance * S * list pymongo.event :=
  match returns_early fl m with
  | Some r => (r, self, s, [])
  | None =>
      match client self, db_name self with
      | None, _ => (inl (AttributeError "client"), self, s, [])
      | Some _, None => (inl (AttributeError "db_name"), self, s, [])
      | Some cl, Some dbn =>
          match fails_unawaited fl m with
          | Some e => (inl e, self, s, [])
          | None =>
              let col := pymongo.database_getitem (pymongo.client_getitem cl dbn)
                           (collection_of m) in
              let fw := forwarding col m in
              let '(r, s1) := h _ (fw_call fw) s in
              (returned (fw_value fw) r, self, s1, [pymongo.ev (fw_call fw)])
          end
      end
  end.

(** Whether a method call is an [insert] that ends before the driver with
    an empty result. *)
Definition insert_skipped (m : method_call) : bool :=
  match m with
  | call_insert _ l => nothing_to_insert l
  | _ => false
  end.

(** The collection handle of an initialised object. *)
Definition handle_of (cl : pymongo.client) (dbn name : string) : pymongo.collection :=
  pymongo.database_getitem (pymongo.client_getitem cl dbn) name.

(** A facade object after a successful construction. *)
Definition connected (cl : pymongo.client) (dbn : string) : instance :=
  mkInstance (Some cl) (Some dbn).

(** *** Sessions *)

(** Anything a caller can do with a constructed facade object. *)
Inductive operation : Type :=
| op_method (m : method_call)
| op_collection (name : string)
| op_close.

(** One operation, its result dropped (the caller may have caught an
    exception): the object and the driver state it leaves, and the driver
    calls it made. *)
Definition perform {S : Type} (h : pymongo.handler S) (fl : flavour)
    (op : operation) (self : instance) (s : S)
  : instance * S * list pymongo.event :=
  match op with
  | op_method m =>
      let r := run_method h (invoke fl m) self s in
      (final_self r, final_state r, calls r)
  | op_collection name =>
      let r := run_method h (invoke_collection fl name) self s in
      (final_self r, final_state r, calls r)
  | op_close =>
      let r := run_method h (invoke_close fl) self s in
      (final_self r, final_state r, calls r)
  end.

(** A run of operations, one after the other, on the same object. *)
Fixpoint session {S : Type} (h : pymongo.handler S) (fl : flavour)
    (ops : list operation) (self : instance) (s : S)
  : instance * S * list pymongo.event :=
  match ops with
  | [] => (self, s, [])
  | op :: ops' =>
      let '(self1, s1, log1) := perform h fl op self s in
      let '(self2, s2, log2) := session h fl ops' self1 s1 in
      (self2, s2, log1 ++ log2)
  end.

(** The collection names that a run of operations mentions. *)
Definition operation_collection (op : operation) : option string :=
  match op with
  | op_method m => Some (collection_of m)
  | op_collection name => Some name
  | op_close => None
  end.

(** *** Vocabulary for the further properties *)

(** The driver call that a method call on the object [connected cl dbn]
    forwards to, and the unwrapping of its result. *)
Definition forwarded_call (cl : pymongo.client) (dbn : string) (m : method_call)
  : pymongo.call (fw_type (forwarding (handle_of cl dbn (collection_of m)) m)) :=
  fw_call (forwarding (handle_of cl dbn (collection_of m)) m).

Definition forwarded_value (cl : pymongo.client) (dbn : string) (m : method_call)
  : fw_type (forwarding (handle_of cl dbn (collection_of m)) m) -> value :=
  fw_value (forwarding (handle_of cl dbn (collection_of m)) m).

(** A driver call that belongs to the object [connected cl dbn]: closing
    its client, or a call on a collection of its database.  Building a
    client does not belong to it. *)
Definition own_event (cl : pymongo.client) (dbn : string) (e : pymongo.event) : Prop :=
  match projT2 e with
  | pymongo.MongoClient _ _ | pymongo.AsyncMongoClient _ _ => False
  | pymongo.close cl' => cl' = cl
  | _ =>
      match event_collection e with
      | Some col => pymongo.col_database col = pymongo.client_getitem cl dbn
      | None => False
      end
  end.

(** Unfolds the methods and the operations of the method monad. *)
Ltac unfold_facade :=
  unfold run_method, outcome, final_self, final_state, calls,
    invoke, invoke_init, invoke_close, invoke_collection,
    MongoAPI.__init__, AsyncMongoAPI.__init__,
    MongoAPI.close, AsyncMongoAPI.close,
    MongoAPI.collection, AsyncMongoAPI.collection,
    MongoAPI.find_one, AsyncMongoAPI.find_one,
    MongoAPI.find, AsyncMongoAPI.find,
    MongoAPI.insert_one, AsyncMongoAPI.insert_one,
    MongoAPI.insert, AsyncMongoAPI.insert,
    MongoAPI.update_one, AsyncMongoAPI.update_one,
    MongoAPI.update, AsyncMongoAPI.update,
    MongoAPI.delete_one, AsyncMongoAPI.delete_one,
    MongoAPI.delete, AsyncMongoAPI.delete,
    MongoAPI.count, AsyncMongoAPI.count,
    MongoAPI.aggregate, AsyncMongoAPI.aggregate,
    MongoAPI.find_one_and_update, AsyncMongoAPI.find_one_and_update,
    client_db_collection, getattr_client, getattr_db_name,
    setattr_client, setattr_db_name, async_for_coroutine,
    bind, driver, ret, raise, lift.

(** ** Auxiliary facts *)

Lemma list_of_remaining_app (acc rest : list document) :
  list_of_remaining acc rest = acc ++ rest.
Proof.
  revert acc. induction rest as [|d rest IH]; intros acc; simpl.
  - now rewrite app_nil_r.
  - rewrite IH, <- app_assoc. reflexivity.
Qed.

Lemma async_comprehension_map (rest : list document) :
  async_comprehension rest = map VDict rest.
Proof.
  induction rest as [|d rest IH]; simpl; [reflexivity | now rewrite IH].
Qed.

(** [list(cursor)] and the asynchronous comprehension build the same list:
    every document of the cursor, in the cursor's order. *)
Lemma py_list_all (cur : pymongo.cursor) :
  py_list cur = VList (map VDict (pymongo.remaining cur)).
Proof. unfold py_list. now rewrite list_of_remaining_app. Qed.

Lemma py_async_list_all (cur : pymongo.cursor) :
  py_async_list cur = VList (map VDict (pymongo.remaining cur)).
Proof. unfold py_async_list. now rewrite async_comprehension_map. Qed.

Lemma str_in_schemes (service : string) :
  str_in service ["mongodb+srv"; "mongodb"]%string = true <->
  service = "mongodb+srv"%string \/ service = "mongodb"%string.
Proof.
  simpl. destruct (String.eqb_spec service "mongodb+srv") as [E1|N1].
  - split; auto.
  - destruct (String.eqb_spec service "mongodb") as [E2|N2].
    + split; auto.
    + split; [discriminate | intros [?|?]; contradiction].
Qed.

(** ** The facades meet the forwarding contract *)

(** Every operation of either facade runs as the contract says: at most one
    driver call, on the collection handle derived from the attributes of
    [self], with the result unwrapped; [self] is left as it was. *)
Lemma run_invoke
    (fl : flavour) {S : Type} (h : pymongo.handler S) (m : method_call)
    (self : instance) (s : S) :
  run_method h (invoke fl m) self s = contract h fl m self s.
Proof.
  destruct self as [[cl|] [dbn|]]; destruct fl, m; unfold contract;
    try (destruct document_list as [[]|]);
    unfold_facade; unfold returns_early, forwarding, or_empty, default_arg,
      all_documents, returned; simpl;
    try (match goal with
         | |- context [(?n <? 1)%Z] => destruct (n <? 1)%Z
         end; simpl);
    try reflexivity;
    try (match goal with
         | |- context [h ?X ?c s] => destruct (h X c s) as [[e|x] s1]
         end; simpl; unfold py_list, py_async_list;
         rewrite ?list_of_remaining_app, ?async_comprehension_map; simpl;
         reflexivity).
Qed.

(** ** Construction *)

(** The run of [__init__], by whether the scheme passes the check. *)
Lemma run_init_rejected
    (fl : flavour) {S : Type} (h : pymongo.handler S) (s : S) (self : instance)
    (db_address dbn db_username db_password service : string)
    (kwargs : list (string * value)) :
  str_in service ["mongodb+srv"; "mongodb"]%string = false ->
  run_method h
    (invoke_init fl db_address dbn db_username db_password (Some service) kwargs)
    self s
  = (inl InvalidConfiguration, self, s, []).
Proof.
  intros E. destruct fl; unfold_facade; unfold default_arg; rewrite E; reflexivity.
Qed.

Lemma run_init_accepted
    (fl : flavour) {S : Type} (h : pymongo.handler S) (s : S) (self : instance)
    (db_address dbn db_username db_password service : string)
    (kwargs : list (string * value)) :
  str_in service ["mongodb+srv"; "mongodb"]%string = true ->
  let ctor := client_constructor fl
                (connection_uri service db_username db_password db_address dbn) kwargs in
  run_method h
    (invoke_init fl db_address dbn db_username db_password (Some service) kwargs)
    self s
  = match h _ ctor s with
    | (inr cl, s1) => (inr VNone, mkInstance (Some cl) (Some dbn), s1, [pymongo.ev ctor])
    | (inl e, s1) => (inl e, self, s1, [pymongo.ev ctor])
    end.
Proof.
  intros E ctor. subst ctor.
  destruct fl; unfold_facade; unfold default_arg, client_constructor;
    rewrite E; simpl;
    (match goal with |- context [h ?X ?c s] => destruct (h X c s) as [[e|cl] s1] end);
    reflexivity.
Qed.

(** C2. A scheme other than "mongodb" and "mongodb+srv" makes the
    construction of either facade raise the configuration error with no
    driver call made (so no client is built and nothing reaches the
    network) and the driver state untouched.  With one of the two schemes
    the construction makes one driver call, the client constructor, and no
    other (no connectivity check follows it); it succeeds whenever that
    constructor returns, leaving the new client and the database name in
    the object. *)
Theorem construction_checks_scheme
    (fl : flavour) {S : Type} (h : pymongo.handler S) (s : S) (self : instance)
    (db_address dbn db_username db_password service : string)
    (kwargs : list (string * value)) :
  let r := run_method h
             (invoke_init fl db_address dbn db_username db_password (Some service) kwargs)
             self s in
  let ctor := client_constructor fl
                (connection_uri service db_username db_password db_address dbn) kwargs in
  (service <> "mongodb"%string -> service <> "mongodb+srv"%string ->
   r = (inl InvalidConfiguration, self, s, []))
  /\ (service = "mongodb"%string \/ service = "mongodb+srv"%string ->
      calls r = [pymongo.ev ctor]
      /\ forall cl s1, h _ ctor s = (inr cl, s1) ->
           r = (inr VNone, mkInstance (Some cl) (Some dbn), s1, [pymongo.ev ctor])).
Proof.
  intros r ctor. subst r ctor. split.
  - intros N1 N2. apply run_init_rejected.
    destruct (str_in _ _) eqn:E; [|reflexivity].
    apply str_in_schemes in E. destruct E; contradiction.
  - intros V. rewrite run_init_accepted by (apply str_in_schemes; tauto).
    destruct (h _ _ s) as [[e|cl'] s1']; (split; [reflexivity|]);
      intros cl s1 H; inversion H; reflexivity.
Qed.

Lemma construction_checks_scheme_witness :
  run_method RefDriver.handle
    (invoke_init Async "db.example.net" "shop" "ann" "pw" (Some "http"%string) [])
    new_instance RefDriver.empty_server
  = (inl InvalidConfiguration, new_instance, RefDriver.empty_server, [])
  /\ run_method RefDriver.handle
       (invoke_init Async "db.example.net" "shop" "ann" "pw" (Some "mongodb+srv"%string) [])
       new_instance RefDriver.empty_server
     = (inr VNone,
        mkInstance (Some (pymongo.mkClient 0)) (Some "shop"%string),
        RefDriver.mkServer ∅ 0 1,
        [pymongo.ev (pymongo.AsyncMongoClient
           "mongodb+srv://ann:pw@db.example.net/shop?retryWrites=true&w=majority" [])]).
Proof.
  split.
  - apply (proj1 (construction_checks_scheme Async RefDriver.handle
                    RefDriver.empty_server new_instance
                    "db.example.net" "shop" "ann" "pw" "http" []));
      discriminate.
  - apply (proj2 (construction_checks_scheme Async RefDriver.handle
                    RefDriver.empty_server new_instance
                    "db.example.net" "shop" "ann" "pw" "mongodb+srv" []));
      [right; reflexivity | reflexivity].
Defined.



(** ** The two facades side by side *)

(** The synchronous facade awaits nothing and so never fails for want of
    an [await]. *)
Lemma sync_never_unawaited (m : method_call) : fails_unawaited Sync m = None.
Proof. destruct m; reflexivity. Qed.

(** Away from the early return of [insert] and from the asynchronous
    [aggregate], the two facades run alike: the same driver call, the same
    value or exception, the same final state. *)
Lemma facades_agree
    {S : Type} (h : pymongo.handler S) (m : method_call) (self : instance) (s : S) :
  insert_skipped m = false ->
  fails_unawaited Async m = None ->
  run_method h (invoke Sync m) self s = run_method h (invoke Async m) self s.
Proof.
  intros E U. rewrite !run_invoke. unfold contract.
  assert (R : returns_early Sync m = returns_early Async m).
  { destruct m; try reflexivity. simpl in *. unfold nothing_to_insert in E.
    destruct (default_arg VNone document_list); simpl in *;
      try discriminate; try reflexivity; rewrite E; reflexivity. }
  rewrite R, U, sync_never_unawaited. reflexivity.
Qed.

(** C1. On an empty or absent document list the two facades return unequal
    values under every driver: the synchronous [insert] returns [None], the
    asynchronous one the empty list. *)
Theorem insert_of_nothing_differs
    {S : Type} (h : pymongo.handler S) (s : S) (self : instance) (c : string) :
  let sync l := outcome (run_method h (invoke Sync (call_insert c l)) self s) in
  let async l := outcome (run_method h (invoke Async (call_insert c l)) self s) in
  (sync None = inr VNone /\ async None = inr (VList []) /\ sync None <> async None)
  /\ (sync (Some (VList [])) = inr VNone /\ async (Some (VList [])) = inr (VList [])
      /\ sync (Some (VList [])) <> async (Some (VList []))).
Proof.
  intros sync async. subst sync async. cbv beta.
  rewrite !run_invoke. unfold contract, outcome. simpl.
  repeat split; discriminate.
Qed.

(** ** Inserting *)

(** C3. [insert] on an absent, [None] or empty document list returns an
    empty result ([None] from the synchronous facade, the empty list from
    the asynchronous one) without any driver call and without touching the
    driver state.  On a non-empty list it makes exactly one driver call,
    the batched insert of the list as given, and returns the driver's list
    of identifiers as it is: whatever relation the driver establishes
    between the i-th document and the i-th identifier holds between the
    caller's list and the returned one. *)
Theorem insert_batches_once
    (fl : flavour) {S : Type} (h : pymongo.handler S) (s : S) (c : string) :
  (forall (self : instance) (l : option value),
      l = None \/ l = Some VNone \/ l = Some (VList []) ->
      run_method h (invoke fl (call_insert c l)) self s
      = (inr (empty_result fl), self, s, []))
  /\ (forall (cl : pymongo.client) (dbn : string) (d : value) (ds : list value),
        let batch := pymongo.insert_many (handle_of cl dbn c) (VList (d :: ds)) in
        let r := run_method h (invoke fl (call_insert c (Some (VList (d :: ds)))))
                   (connected cl dbn) s in
        calls r = [pymongo.ev batch]
        /\ forall res s1, h _ batch s = (inr res, s1) ->
             outcome r = inr (VList (pymongo.inserted_ids res))
             /\ forall assigned : value -> value -> Prop,
                  Forall2 assigned (d :: ds) (pymongo.inserted_ids res) ->
                  exists ids, outcome r = inr (VList ids)
                              /\ Forall2 assigned (d :: ds) ids).
Proof.
  split.
  - intros self l [->|[->| ->]]; rewrite run_invoke; reflexivity.
  - intros cl dbn d ds batch r. subst batch r. rewrite run_invoke.
    unfold contract, connected, handle_of, calls, outcome. simpl.
    assert (E : (Z.of_nat (Datatypes.S (List.length ds)) <? 1)%Z = false)
      by (apply Z.ltb_ge; lia).
    change (Z.pos (Pos.of_succ_nat (List.length ds)))
      with (Z.of_nat (Datatypes.S (List.length ds))).
    rewrite E. simpl.
    destruct (h _ _ s) as [[e|res'] s1'] eqn:Hh; simpl; (split; [reflexivity|]);
      intros res s1 H; inversion H; subst.
    split; [reflexivity|]. intros assigned A. eexists. split; [reflexivity | exact A].
Qed.

Lemma insert_batches_once_witness :
  let self := connected (pymongo.mkClient 0) "db" in
  let docs := [VDict [("_id"%string, VInt 7); ("a"%string, VInt 1)];
               VDict [("_id"%string, VInt 3); ("a"%string, VInt 2)]] in
  let id_of (d id : value) :=
    match d with
    | VDict doc => get_field "_id" doc = Some id
    | _ => False
    end in
  run_method RefDriver.handle (invoke Sync (call_insert "nums" None)) self
    RefDriver.empty_server
  = (inr VNone, self, RefDriver.empty_server, [])
  /\ exists ids,
       outcome (run_method RefDriver.handle
                  (invoke Sync (call_insert "nums" (Some (VList docs)))) self
                  RefDriver.empty_server)
       = inr (VList ids)
       /\ Forall2 id_of docs ids.
Proof.
  intros self docs id_of. split.
  - apply (proj1 (insert_batches_once Sync RefDriver.handle RefDriver.empty_server
                    "nums")).
    left; reflexivity.
  - eapply (proj2 (insert_batches_once Sync RefDriver.handle RefDriver.empty_server
                     "nums")).
    + vm_compute. reflexivity.
    + repeat constructor.
Defined.

(** ** Sequencing *)

Lemma run_prog_bind {S A B : Type} (h : pymongo.handler S) (p : prog A)
    (f : A -> prog B) (s : S) :
  run h (prog_bind p f) s
  = let '(a, s1, log1) := run h p s in
    let '(b, s2, log2) := run h (f a) s1 in
    (b, s2, log1 ++ log2).
Proof.
  revert s. induction p as [a | X c k IH]; intros s; simpl.
  - destruct (run h (f a) s) as [[b s2] log2]. reflexivity.
  - destruct (h X c s) as [r s1]. rewrite IH.
    destruct (run h (k r) s1) as [[a s2] log1].
    destruct (run h (f a) s2) as [[b s3] log2]. reflexivity.
Qed.

(** Two method calls in a row: the second runs on the object and the driver
    state the first leaves; an exception of the first ends the sequence. *)
Lemma run_bind {S A B : Type} (h : pymongo.handler S) (m : api A) (f : A -> api B)
    (self : instance) (s : S) :
  run_method h (bind m f) self s
  = match run_method h m self s with
    | (inl e, self1, s1, log1) => (inl e, self1, s1, log1)
    | (inr a, self1, s1, log1) =>
        let '(r, self2, s2, log2) := run_method h (f a) self1 s1 in
        (r, self2, s2, log1 ++ log2)
    end.
Proof.
  unfold run_method, bind. rewrite run_prog_bind.
  destruct (run h (m self) s) as [[[[e|a] self1] s1] log1]; simpl.
  - rewrite app_nil_r. reflexivity.
  - destruct (run h (f a self1) s1) as [[[r self2] s2] log2]. reflexivity.
Qed.

(** ** Updating *)

(** C4. [update_one] and [update] return the [modified_count] of the
    driver's result, whatever its [matched_count]: the number of documents
    the driver reports as changed, not the number the filter matched. *)
Theorem update_returns_modified_count
    (fl : flavour) {S : Type} (h : pymongo.handler S) (s : S)
    (cl : pymongo.client) (dbn c : string)
    (filter_dict update_dict : option value) (upsert : option bool) :
  let self := connected cl dbn in
  let one := pymongo.update_one (handle_of cl dbn c) (default_arg VNone filter_dict)
               (default_arg VNone update_dict) (default_arg false upsert) in
  let many := pymongo.update_many (handle_of cl dbn c) (default_arg VNone filter_dict)
                (default_arg VNone update_dict) (default_arg false upsert) in
  (forall res s1, h _ one s = (inr res, s1) ->
     run_method h (invoke fl (call_update_one c filter_dict update_dict upsert)) self s
     = (inr (VInt (pymongo.modified_count res)), self, s1, [pymongo.ev one]))
  /\ (forall res s1, h _ many s = (inr res, s1) ->
        run_method h (invoke fl (call_update c filter_dict update_dict upsert)) self s
        = (inr (VInt (pymongo.modified_count res)), self, s1, [pymongo.ev many])).
Proof.
  intros self one many. subst self one many.
  split; intros res s1 H; rewrite run_invoke;
    unfold contract, connected, handle_of in *; simpl in *; rewrite H; reflexivity.
Qed.

Lemma update_returns_modified_count_witness :
  let cl := pymongo.mkClient 0 in
  let self := connected cl "db" in
  let srv := RefDriver.set_docs RefDriver.empty_server (handle_of cl "db" "c")
               [[("_id"%string, VInt 1); ("a"%string, VInt 1)];
                [("_id"%string, VInt 2); ("a"%string, VInt 2)]] in
  let same := Some (VDict [("$set"%string, VDict [("a"%string, VInt 1)])]) in
  outcome (run_method RefDriver.handle
             (invoke Sync (call_update_one "c" (Some (VDict [("a"%string, VInt 1)]))
                             same None)) self srv)
  = inr (VInt 0)
  /\ outcome (run_method RefDriver.handle
                (invoke Sync (call_update "c" (Some (VDict [])) same None)) self srv)
     = inr (VInt 1).
Proof.
  intros cl self srv same. subst self. split.
  - erewrite (proj1 (update_returns_modified_count Sync RefDriver.handle srv cl
                       "db" "c" (Some (VDict [("a"%string, VInt 1)])) same None)
                (pymongo.mkUpdateResult 1 0 VNone));
      [reflexivity | vm_compute; reflexivity].
  - erewrite (proj2 (update_returns_modified_count Sync RefDriver.handle srv cl
                       "db" "c" (Some (VDict [])) same None)
                (pymongo.mkUpdateResult 2 1 VNone));
      [reflexivity | vm_compute; reflexivity].
Defined.

(** ** Deleting *)

Lemma docs_of_set_docs (s : RefDriver.server) (col : pymongo.collection)
    (docs : list document) :
  RefDriver.docs_of (RefDriver.set_docs s col docs) col = docs.
Proof.
  unfold RefDriver.docs_of, RefDriver.set_docs. simpl.
  rewrite lookup_insert_eq. reflexivity.
Qed.

Lemma delete_docs_everything (docs : list document) :
  RefDriver.delete_docs true [] docs = ([], Z.of_nat (List.length docs)).
Proof.
  induction docs as [|d docs IH]; [reflexivity|].
  cbn [RefDriver.delete_docs RefDriver.matches forallb]. rewrite IH.
  f_equal. cbn [List.length]. lia.
Qed.

(** With the empty filter given explicitly, the reference driver removes
    every document of the collection, reports how many there were, and a
    following [count] returns 0. *)
Lemma delete_everything_then_count
    (fl : flavour) (srv : RefDriver.server) (cl : pymongo.client) (dbn c : string) :
  let self := connected cl dbn in
  let r := run_method RefDriver.handle
             (let* removed := invoke fl (call_delete c (Some (VDict []))) in
              let* left := invoke fl (call_count c None) in
              ret (removed, left))%api self srv in
  outcome r
  = inr (VInt (Z.of_nat (List.length (RefDriver.docs_of srv (handle_of cl dbn c)))),
         VInt 0)
  /\ RefDriver.docs_of (final_state r) (handle_of cl dbn c) = [].
Proof.
  intros self r. subst self r.
  rewrite run_bind, run_invoke.
  unfold contract, connected, handle_of. simpl.
  unfold RefDriver.do_delete. simpl. rewrite delete_docs_everything. simpl.
  rewrite run_bind, run_invoke. unfold contract. simpl.
  rewrite docs_of_set_docs. simpl.
  split; [reflexivity | apply docs_of_set_docs].
Qed.

(** C5. With the filter left out, [delete] and [delete_one] hand [None] to
    the driver, not the empty filter; [count], next to them, replaces an
    absent filter by [{}].  The reference driver, like pymongo, refuses a
    filter that is not a mapping: the call raises [TypeError] and every
    document stays. *)
Theorem delete_forwards_absent_filter
    (fl : flavour) {S : Type} (h : pymongo.handler S) (s : S)
    (cl : pymongo.client) (dbn c : string) :
  let self := connected cl dbn in
  let col := handle_of cl dbn c in
  calls (run_method h (invoke fl (call_delete c None)) self s)
  = [pymongo.ev (pymongo.delete_many col VNone)]
  /\ calls (run_method h (invoke fl (call_delete_one c None)) self s)
     = [pymongo.ev (pymongo.delete_one col VNone)]
  /\ calls (run_method h (invoke fl (call_count c None)) self s)
     = [pymongo.ev (pymongo.count_documents col (VDict []))]
  /\ forall srv : RefDriver.server,
       run_method RefDriver.handle (invoke fl (call_delete c None)) self srv
       = (inl (TypeError "filter must be an instance of dict"), self, srv,
          [pymongo.ev (pymongo.delete_many col VNone)]).
Proof.
  intros self col. subst self col.
  repeat split; try intros srv; rewrite run_invoke;
    unfold contract, connected, handle_of, calls; simpl;
    try (destruct (h _ _ s) as [r s1]); reflexivity.
Qed.

(** ** Reading *)

(** C6. [find] makes one driver call and returns a list holding every
    document of the cursor that the driver hands back, in the cursor's
    order, so that nothing of the cursor is left to the caller; with [skip]
    and [limit] left out it asks the driver for skip 0 and limit 0.
    [find_one] returns what the driver found: one document, or [None] when
    there is none. *)
Theorem find_materializes
    (fl : flavour) {S : Type} (h : pymongo.handler S) (s : S)
    (cl : pymongo.client) (dbn c : string)
    (filter_dict projection_dict sort : option value) :
  let self := connected cl dbn in
  let col := handle_of cl dbn c in
  let f := default_arg VNone filter_dict in
  let p := default_arg VNone projection_dict in
  let so := default_arg VNone sort in
  (forall skip limit : option Z,
     let q := pymongo.find col f p so (default_arg 0 skip) (default_arg 0 limit) in
     let r := run_method h
                (invoke fl (call_find c filter_dict projection_dict sort skip limit))
                self s in
     calls r = [pymongo.ev q]
     /\ forall cur s1, h _ q s = (inr cur, s1) ->
          outcome r = inr (VList (map VDict (pymongo.remaining cur))))
  /\ calls (run_method h
             (invoke fl (call_find c filter_dict projection_dict sort None None))
             self s)
     = [pymongo.ev (pymongo.find col f p so 0 0)]
  /\ (let q1 := pymongo.find_one col f p so in
      let r1 := run_method h
                  (invoke fl (call_find_one c filter_dict projection_dict sort))
                  self s in
      calls r1 = [pymongo.ev q1]
      /\ forall found s1, h _ q1 s = (inr found, s1) ->
           (found = None /\ outcome r1 = inr VNone)
           \/ (exists d, found = Some d /\ outcome r1 = inr (VDict d))).
Proof.
  intros self col f p so. subst self col f p so.
  split; [|split].
  - intros skip limit q r. subst q r. split.
    + rewrite run_invoke. unfold contract, connected, handle_of, calls. simpl.
      destruct (h _ _ s) as [r s1]. reflexivity.
    + intros cur s1 H. rewrite run_invoke.
      unfold contract, connected, handle_of, outcome in *. simpl in *.
      rewrite H. reflexivity.
  - rewrite run_invoke. unfold contract, connected, handle_of, calls. simpl.
    destruct (h _ _ s) as [r s1]. reflexivity.
  - intros q1 r1. subst q1 r1. split.
    + rewrite run_invoke. unfold contract, connected, handle_of, calls. simpl.
      destruct (h _ _ s) as [r s1]. reflexivity.
    + intros found s1 H. rewrite run_invoke.
      unfold contract, connected, handle_of, outcome in *. simpl in *.
      rewrite H. destruct found as [d|]; simpl.
      * right. exists d. split; reflexivity.
      * left. split; reflexivity.
Qed.

Lemma find_materializes_witness :
  let cl := pymongo.mkClient 0 in
  let self := connected cl "db" in
  let a (n : Z) : document := [("_id"%string, VInt n); ("a"%string, VInt n)] in
  let srv := RefDriver.set_docs RefDriver.empty_server (handle_of cl "db" "nums")
               [a 1; a 2; a 3] in
  outcome (run_method RefDriver.handle
             (invoke Async (call_find "nums" None None None None None)) self srv)
  = inr (VList [VDict (a 1); VDict (a 2); VDict (a 3)])
  /\ outcome (run_method RefDriver.handle
                (invoke Async (call_find "nums" None None None (Some 1) (Some 1)))
                self srv)
     = inr (VList [VDict (a 2)])
  /\ outcome (run_method RefDriver.handle
                (invoke Async
                   (call_find_one "nums" (Some (VDict [("a"%string, VInt 5)])) None None))
                self srv)
     = inr VNone.
Proof.
  intros cl self a srv. subst self.
  pose proof (find_materializes Async RefDriver.handle srv cl "db" "nums"
                None None None) as F.
  cbv zeta in F. destruct F as (F & _ & _).
  pose proof (find_materializes Async RefDriver.handle srv cl "db" "nums"
                (Some (VDict [("a"%string, VInt 5)])) None None) as G.
  cbv zeta in G. destruct G as (_ & _ & _ & G).
  split; [|split].
  - apply (proj2 (F None None) (pymongo.mkCursor [a 1; a 2; a 3]) srv).
    vm_compute. reflexivity.
  - apply (proj2 (F (Some 1) (Some 1)) (pymongo.mkCursor [a 2]) srv).
    vm_compute. reflexivity.
  - destruct (G None srv) as [[_ H]|[d [E _]]];
      [vm_compute; reflexivity | exact H | discriminate E].
Defined.

(** ** Find and update in one step *)

(** C10. The two defaults of [find_one_and_update], each for every value
    of the other argument.  Called without a filter (or with [None]), it
    asks the driver for the empty filter [{}], whatever the
    return-document selector; called without a selector, it asks for the
    document as it is after the update ([ReturnDocument.AFTER]), whatever
    the filter.  A filter and a selector that are given go to the driver
    as they are, and the method returns what the driver answers.  So the
    call with neither runs exactly as the one with [{}] and
    [ReturnDocument.AFTER] given. *)
Theorem find_one_and_update_defaults
    (fl : flavour) {S : Type} (h : pymongo.handler S) (s : S)
    (cl : pymongo.client) (dbn c : string) (update_dict : value)
    (projection_dict sort : option value) :
  let self := connected cl dbn in
  let asked f rd :=
    pymongo.find_one_and_update (handle_of cl dbn c) f update_dict
      (default_arg VNone projection_dict) (default_arg VNone sort) rd in
  let run_with f rd :=
    run_method h
      (invoke fl (call_find_one_and_update c update_dict f projection_dict sort rd))
      self s in
  let q := asked (VDict []) pymongo.AFTER in
  let r := run_with None None in
  calls r = [pymongo.ev q]
  /\ r = run_with (Some (VDict [])) (Some pymongo.AFTER)
  /\ (forall found s1, h _ q s = (inr found, s1) ->
        outcome r = inr (of_optional_document found))
  /\ (forall rd : option pymongo.ReturnDocument,
        run_with None rd = run_with (Some (VDict [])) rd
        /\ run_with (Some VNone) rd = run_with (Some (VDict [])) rd)
  /\ (forall f : option value,
        run_with f None = run_with f (Some pymongo.AFTER))
  /\ (forall (f : value) (rd : pymongo.ReturnDocument),
        f <> VNone ->
        calls (run_with (Some f) (Some rd)) = [pymongo.ev (asked f rd)]
        /\ forall found s1, h _ (asked f rd) s = (inr found, s1) ->
             run_with (Some f) (Some rd)
             = (inr (of_optional_document found), self, s1,
                [pymongo.ev (asked f rd)])).
Proof.
  intros self asked run_with q r. subst self asked run_with q r. cbv beta.
  split; [|split; [|split; [|split; [|split]]]].
  - rewrite run_invoke. unfold contract, connected, handle_of, calls. simpl.
    destruct (h _ _ s) as [r s1]. reflexivity.
  - rewrite !run_invoke. reflexivity.
  - intros found s1 H. rewrite run_invoke.
    unfold contract, connected, handle_of, outcome in *. simpl.
    unfold or_empty. simpl. unfold default_arg in *. rewrite H. reflexivity.
  - intros rd. split; rewrite !run_invoke; reflexivity.
  - intros f. rewrite !run_invoke. reflexivity.
  - intros f rd N.
    assert (E : or_empty (VDict []) f = f)
      by (destruct f; try reflexivity; contradiction).
    rewrite run_invoke. unfold contract, connected, handle_of, calls. simpl.
    unfold default_arg in *. rewrite E. split.
    + destruct (h _ _ s) as [r s1]. reflexivity.
    + intros found s1 H. rewrite H. reflexivity.
Qed.

Lemma find_one_and_update_defaults_witness :
  let cl := pymongo.mkClient 0 in
  let self := connected cl "db" in
  let srv := RefDriver.set_docs RefDriver.empty_server (handle_of cl "db" "c")
               [[("_id"%string, VInt 1); ("a"%string, VInt 1)];
                [("_id"%string, VInt 2); ("a"%string, VInt 1)]] in
  let bump := VDict [("$set"%string, VDict [("a"%string, VInt 2)])] in
  let second := VDict [("_id"%string, VInt 2)] in
  outcome (run_method RefDriver.handle
             (invoke Sync (call_find_one_and_update "c" bump None None None None))
             self srv)
  = inr (VDict [("_id"%string, VInt 1); ("a"%string, VInt 2)])
  /\ outcome (run_method RefDriver.handle
                (invoke Sync (call_find_one_and_update "c" bump (Some second) None None
                                None))
                self srv)
     = inr (VDict [("_id"%string, VInt 2); ("a"%string, VInt 2)])
  /\ outcome (run_method RefDriver.handle
                (invoke Sync (call_find_one_and_update "c" bump None None None
                                (Some pymongo.BEFORE)))
                self srv)
     = inr (VDict [("_id"%string, VInt 1); ("a"%string, VInt 1)]).
Proof.
  intros cl self srv bump second. subst self.
  pose proof (find_one_and_update_defaults Sync RefDriver.handle srv cl "db" "c"
                bump None None) as D.
  cbv zeta in D. destruct D as (_ & _ & D0 & D1 & D2 & D3).
  split; [|split].
  - eapply (D0 (Some [("_id"%string, VInt 1); ("a"%string, VInt 2)])).
    vm_compute. reflexivity.
  - rewrite (D2 (Some second)).
    erewrite (proj2 (D3 second pymongo.AFTER ltac:(discriminate))
                (Some [("_id"%string, VInt 2); ("a"%string, VInt 2)]));
      [reflexivity | vm_compute; reflexivity].
  - rewrite (proj1 (D1 (Some pymongo.BEFORE))).
    erewrite (proj2 (D3 (VDict []) pymongo.BEFORE ltac:(discriminate))
                (Some [("_id"%string, VInt 1); ("a"%string, VInt 1)]));
      [reflexivity | vm_compute; reflexivity].
Defined.

(** ** The object after construction *)

Lemma perform_keeps_self
    {S : Type} (h : pymongo.handler S) (fl : flavour) (op : operation)
    (self : instance) (s : S) :
  (perform h fl op self s).1.1 = self.
Proof.
  destruct op as [m | name |]; simpl.
  - rewrite run_invoke. unfold contract, final_self.
    destruct (returns_early fl m); [reflexivity|].
    destruct self as [[cl|] [dbn|]]; simpl; try reflexivity.
    destruct (fails_unawaited fl m); [reflexivity|].
    destruct (h _ _ s) as [r s1]. reflexivity.
  - destruct self as [[cl|] [dbn|]], fl; reflexivity.
  - destruct self as [[cl|] [dbn|]], fl; unfold_facade; simpl; try reflexivity;
      destruct (h _ _ s) as [[e|[]] s1]; reflexivity.
Qed.

Lemma perform_on_derived_collection
    {S : Type} (h : pymongo.handler S) (fl : flavour) (m : method_call)
    (self : instance) (s : S) :
  Forall (fun e => event_collection e = derived_collection self (collection_of m))
    (calls (run_method h (invoke fl m) self s)).
Proof.
  rewrite run_invoke. unfold contract, calls, derived_collection.
  destruct (returns_early fl m); [constructor|].
  destruct self as [[cl|] [dbn|]]; simpl; [|constructor..].
  destruct (fails_unawaited fl m); [constructor|].
  destruct (h _ _ s) as [r s1]. simpl. constructor; [|constructor].
  destruct m; reflexivity.
Qed.

(** C9. No operation on a facade object changes its attributes: after any
    run of operations ([find_one], [find], [insert_one], [insert],
    [update_one], [update], [delete_one], [delete], [count], [aggregate],
    [find_one_and_update], [collection], [close]), against any driver, the
    client and the database name are the ones the run started with.  Every
    driver call of a method goes to the collection handle
    [self.client[self.db_name][collection]] built from the attributes at
    the time of the call and the name given, and [collection] returns that
    handle without any driver call; the object has no attribute in which a
    handle could be kept. *)
Theorem facade_state_unchanged
    (fl : flavour) {S : Type} (h : pymongo.handler S) (s : S) (self : instance) :
  (forall ops : list operation, (session h fl ops self s).1.1 = self)
  /\ (forall m : method_call,
        Forall (fun e => event_collection e
                         = derived_collection self (collection_of m))
          (calls (run_method h (invoke fl m) self s)))
  /\ (forall name : string,
        run_method h (invoke_collection fl name) self s
        = (match client self, db_name self with
           | None, _ => inl (AttributeError "client")
           | Some _, None => inl (AttributeError "db_name")
           | Some cl, Some dbn => inr (handle_of cl dbn name)
           end, self, s, [])).
Proof.
  split; [|split].
  - intros ops. revert s. induction ops as [|op ops IH]; intros s; [reflexivity|].
    cbn [session].
    pose proof (perform_keeps_self h fl op self s) as K.
    destruct (perform h fl op self s) as [[self1 s1] log1]. simpl in K. subst self1.
    specialize (IH s1).
    destruct (session h fl ops self s1) as [[self2 s2] log2]. exact IH.
  - intros m. apply perform_on_derived_collection.
  - intros name. destruct self as [[cl|] [dbn|]], fl; reflexivity.
Qed.

(** ** Insert one, then find it *)

(** C7. [insert_one] hands the document to the driver as given, an absent
    or [None] document as the empty one, and returns the identifier the
    driver assigned; a following [find_one] on [{"_id": id}] returns the
    document the driver finds under that identifier.  So under a driver
    that stores [d] and finds, by the identifier it assigned, a document
    equal to [d] plus that identifier, the caller gets the identifier and
    then a document equal to [d] plus the identifier. *)
Theorem insert_one_then_find_one
    (fl : flavour) {S : Type} (h : pymongo.handler S) (s s1 s2 : S)
    (cl : pymongo.client) (dbn c : string) (d : option document)
    (id : value) (found : document) :
  let self := connected cl dbn in
  let col := handle_of cl dbn c in
  let doc := default_arg [] d in
  let stored := pymongo.insert_one col (VDict doc) in
  let lookup := pymongo.find_one col (VDict [("_id"%string, id)]) VNone VNone in
  (run_method h (invoke fl (call_insert_one c None)) self s
   = run_method h (invoke fl (call_insert_one c (Some (VDict [])))) self s
   /\ run_method h (invoke fl (call_insert_one c (Some VNone))) self s
      = run_method h (invoke fl (call_insert_one c (Some (VDict [])))) self s)
  /\ (h _ stored s = (inr (pymongo.mkInsertOneResult id), s1) ->
      h _ lookup s1 = (inr (Some found), s2) ->
      dict_eq found (set_field "_id" id doc) ->
      exists got,
        run_method h
          (let* rid := invoke fl (call_insert_one c (option_map VDict d)) in
           let* res := invoke fl (call_find_one c
                                    (Some (VDict [("_id"%string, rid)])) None None) in
           ret (rid, res))%api self s
        = (inr (id, VDict got), self, s2, [pymongo.ev stored; pymongo.ev lookup])
        /\ dict_eq got (set_field "_id" id doc)).
Proof.
  intros self col doc stored lookup. subst self col doc stored lookup.
  split; [split; rewrite !run_invoke; reflexivity|].
  intros Hs Hl Heq. exists found. split; [|exact Heq].
  rewrite run_bind, run_invoke.
  unfold contract, connected, handle_of in *. simpl.
  assert (E : or_empty (VDict []) (default_arg VNone (option_map VDict d))
              = VDict (default_arg [] d)) by (destruct d; reflexivity).
  rewrite E, Hs. simpl.
  rewrite run_bind, run_invoke. unfold contract. simpl. rewrite Hl. reflexivity.
Qed.

(** *** The reference driver stores and finds by identifier *)

Lemma value_eqb_refl : forall v : value, RefDriver.value_eqb v v = true.
Proof.
  fix IH 1. intros [| b | n | str | oid | items | items]; simpl.
  - reflexivity.
  - destruct b; reflexivity.
  - apply Z.eqb_refl.
  - apply String.eqb_refl.
  - apply N.eqb_refl.
  - induction items as [|x items IHitems]; [reflexivity|].
    rewrite (IH x). exact IHitems.
  - induction items as [|[k x] items IHitems]; [reflexivity|].
    rewrite String.eqb_refl, (IH x). exact IHitems.
Qed.

Lemma get_field_set_field (k k' : string) (v : value) (d : document) :
  get_field k (set_field k' v d)
  = if String.eqb k k' then Some v else get_field k d.
Proof.
  induction d as [|[k0 w] d IH]; simpl.
  - reflexivity.
  - destruct (String.eqb_spec k' k0) as [->|N]; simpl.
    + destruct (String.eqb k k0); reflexivity.
    + rewrite IH. destruct (String.eqb_spec k k0) as [->|N0].
      * destruct (String.eqb_spec k0 k') as [E|_]; [congruence | reflexivity].
      * reflexivity.
Qed.

Lemma filter_nothing {A : Type} (p : A -> bool) (l : list A) :
  existsb p l = false -> List.filter p l = [].
Proof.
  induction l as [|x l IH]; simpl; [reflexivity|].
  destruct (p x); simpl; [discriminate | exact IH].
Qed.

Lemma matches_by_id (id : value) (d : document) :
  RefDriver.matches [("_id"%string, id)] d = RefDriver.has_id id d.
Proof.
  unfold RefDriver.matches, RefDriver.has_id. simpl.
  destruct (get_field "_id" d); [apply andb_true_r | reflexivity].
Qed.

Lemma filter_by_id (id : value) (docs : list document) :
  List.filter (RefDriver.matches [("_id"%string, id)]) docs
  = List.filter (RefDriver.has_id id) docs.
Proof.
  induction docs as [|d docs IH]; [reflexivity|].
  cbn [List.filter]. rewrite matches_by_id, IH. reflexivity.
Qed.

(** After a successful [insert_one] the reference driver finds, under the
    identifier it returned, the document given plus that identifier. *)
Lemma reference_insert_one_find_one
    (col : pymongo.collection) (d : document) (id : value)
    (srv s1 : RefDriver.server) :
  RefDriver.handle _ (pymongo.insert_one col (VDict d)) srv
  = (inr (pymongo.mkInsertOneResult id), s1) ->
  exists found,
    RefDriver.handle _
      (pymongo.find_one col (VDict [("_id"%string, id)]) VNone VNone) s1
    = (inr (Some found), s1)
    /\ dict_eq found (set_field "_id" id d).
Proof.
  simpl. unfold RefDriver.store_one.
  destruct (get_field "_id" d) as [id0|] eqn:G.
  - destruct (existsb _ _) eqn:X; [discriminate|].
    intros H. inversion H; subst. exists d. split.
    + unfold RefDriver.do_find. simpl. rewrite docs_of_set_docs.
      unfold RefDriver.window. simpl. rewrite filter_by_id, List.filter_app.
      rewrite (filter_nothing _ _ X). simpl.
      unfold RefDriver.has_id. rewrite G, value_eqb_refl. reflexivity.
    + intros k. rewrite get_field_set_field.
      destruct (String.eqb_spec k "_id") as [->|_]; [exact G | reflexivity].
  - destruct (existsb _ _) eqn:X; [discriminate|].
    intros H. inversion H; subst.
    exists (("_id"%string, VObjectId (RefDriver.next_oid srv)) :: d). split.
    + unfold RefDriver.do_find. simpl. rewrite docs_of_set_docs.
      unfold RefDriver.window. simpl. rewrite filter_by_id, List.filter_app.
      rewrite (filter_nothing _ _ X). simpl.
      unfold RefDriver.has_id. simpl. rewrite N.eqb_refl. reflexivity.
    + intros k. rewrite get_field_set_field. simpl.
      destruct (String.eqb k "_id"); reflexivity.
Qed.

Lemma insert_one_then_find_one_witness :
  let cl := pymongo.mkClient 0 in
  let self := connected cl "db" in
  let d : document := [("name"%string, VStr "ann"); ("age"%string, VInt 41)] in
  exists got s2 log,
    run_method RefDriver.handle
      (let* rid := invoke Sync (call_insert_one "people" (Some (VDict d))) in
       let* res := invoke Sync (call_find_one "people"
                                  (Some (VDict [("_id"%string, rid)])) None None) in
       ret (rid, res))%api self RefDriver.empty_server
    = (inr (VObjectId 0, VDict got), self, s2, log)
    /\ dict_eq got (set_field "_id" (VObjectId 0) d).
Proof.
  intros cl self d. subst self.
  pose (s1 := RefDriver.set_docs (RefDriver.mkServer ∅ 1 0)
                (handle_of cl "db" "people") [("_id"%string, VObjectId 0) :: d]).
  destruct (proj2 (insert_one_then_find_one Sync RefDriver.handle
                     RefDriver.empty_server s1 s1 cl "db" "people" (Some d)
                     (VObjectId 0) (("_id"%string, VObjectId 0) :: d)))
    as (got & Hrun & Hgot).
  - vm_compute. reflexivity.
  - vm_compute. reflexivity.
  - intros k. rewrite get_field_set_field. simpl.
    destruct (String.eqb k "_id"); reflexivity.
  - exists got. eexists. eexists. split; [exact Hrun | exact Hgot].
Defined.

(** *** Further facts about defaults and the reference driver *)

(** Leaving out [service] is giving "mongodb". *)
Lemma init_default_scheme
    (fl : flavour) (db_address dbn db_username db_password : string)
    (kwargs : list (string * value)) :
  invoke_init fl db_address dbn db_username db_password None kwargs
  = invoke_init fl db_address dbn db_username db_password (Some "mongodb"%string) kwargs.
Proof. destruct fl; reflexivity. Qed.

(** The counts of the reference driver's [update_many]: every document
    that satisfies the filter is matched, and only those of them that the
    update changes are counted as modified. *)
Lemma reference_update_counts (f fields : document) (docs : list document) :
  let changed d :=
    RefDriver.matches f d
    && negb (RefDriver.doc_eqb d (RefDriver.apply_set fields d)) in
  (RefDriver.update_docs true f fields docs).1.2
  = Z.of_nat (List.length (List.filter (RefDriver.matches f) docs))
  /\ (RefDriver.update_docs true f fields docs).2
     = Z.of_nat (List.length (List.filter changed docs)).
Proof.
  intros changed. subst changed.
  induction docs as [|d docs [IH1 IH2]]; [split; reflexivity|].
  cbn [RefDriver.update_docs List.filter].
  destruct (RefDriver.update_docs true f fields docs) as [[rest matched] modified].
  simpl in IH1, IH2.
  destruct (RefDriver.matches f d); cbn [andb negb fst snd List.length].
  - destruct (RefDriver.doc_eqb d (RefDriver.apply_set fields d));
      cbn [negb fst snd List.length]; split; lia.
  - split; assumption.
Qed.

(** The identifiers that the reference driver returns from a batched
    insert are aligned with the documents: the i-th identifier is the [_id]
    of the i-th document, or the ObjectId generated for it when it has
    none. *)
Lemma reference_insert_many_aligned
    (col : pymongo.collection) (docs ids : list value) (srv s1 : RefDriver.server) :
  RefDriver.store_many col docs srv = (inr ids, s1) ->
  Forall2 (fun d id =>
             exists doc, d = VDict doc
                         /\ match get_field "_id" doc with
                            | Some given => id = given
                            | None => exists oid, id = VObjectId oid
                            end)
    docs ids.
Proof.
  revert ids srv. induction docs as [|d docs IH]; intros ids srv; simpl.
  - intros H. inversion H. constructor.
  - destruct (RefDriver.store_one col d srv) as [[e|id] s0] eqn:One.
    + destruct e; discriminate.
    + destruct (RefDriver.store_many col docs s0) as [[e|ids'] s2] eqn:Many;
        [discriminate|].
      intros H. inversion H; subst. constructor; [|exact (IH _ _ Many)].
      unfold RefDriver.store_one in One. destruct d; try discriminate.
      exists items. split; [reflexivity|].
      destruct (get_field "_id" items) as [given|].
      * destruct (existsb _ _); [discriminate|]. inversion One. reflexivity.
      * destruct (existsb _ _); [discriminate|]. inversion One. eauto.
Qed.


(** * Further properties of the facades *)

(** ** Exceptions *)

(** X1. An exception raised by the driver call of an operation reaches the
    caller as it is: the operation raises that very exception after its one
    driver call, with no second attempt and no other call, the driver state
    being the one the failed call left and the object unchanged.  This
    covers every operation that reaches the driver: all of them but an
    [insert] that ends at its guard and the asynchronous [aggregate]. *)
Theorem driver_errors_propagate
    (fl : flavour) {S : Type} (h : pymongo.handler S) (s s1 : S)
    (cl : pymongo.client) (dbn : string) (m : method_call) (e : exn) :
  returns_early fl m = None ->
  fails_unawaited fl m = None ->
  h _ (forwarded_call cl dbn m) s = (inl e, s1) ->
  run_method h (invoke fl m) (connected cl dbn) s
  = (inl e, connected cl dbn, s1, [pymongo.ev (forwarded_call cl dbn m)]).
Proof.
  intros E U H. rewrite run_invoke. unfold contract. rewrite E.
  unfold forwarded_call, handle_of in H.
  cbn [connected client db_name]. rewrite U, H. reflexivity.
Qed.

Lemma driver_errors_propagate_witness :
  let cl := pymongo.mkClient 0 in
  let m := call_insert_one "c" (Some (VDict [("_id"%string, VInt 1)])) in
  let srv := RefDriver.set_docs RefDriver.empty_server (handle_of cl "db" "c")
               [[("_id"%string, VInt 1)]] in
  run_method RefDriver.handle (invoke Async m) (connected cl "db") srv
  = (inl (DriverError "DuplicateKeyError"), connected cl "db", srv,
     [pymongo.ev (forwarded_call cl "db" m)]).
Proof.
  intros cl m srv.
  apply (driver_errors_propagate Async RefDriver.handle srv srv cl "db" m
           (DriverError "DuplicateKeyError")).
  - reflexivity.
  - reflexivity.
  - vm_compute. reflexivity.
Defined.

(** X2. On a constructed object an operation raises without having called
    the driver in two cases only: [insert] on an argument that has no
    length, and [aggregate] of the asynchronous facade, which iterates over
    a coroutine it never awaited.  Nothing else is checked locally, so any
    filter, update, projection, sort or document, of whatever shape, is
    handed to the driver. *)
Theorem local_failures
    (fl : flavour) {S : Type} (h : pymongo.handler S) (s : S)
    (cl : pymongo.client) (dbn : string) (m : method_call) (e : exn) :
  let r := run_method h (invoke fl m) (connected cl dbn) s in
  outcome r = inl e ->
  calls r = [] ->
  (exists c l, m = call_insert c l /\ py_len (default_arg VNone l) = inl e)
  \/ (exists c p,
        fl = Async /\ m = call_aggregate c p
        /\ e = TypeError
                "'async for' requires an object with __aiter__ method, got coroutine").
Proof.
  intros r. subst r. rewrite run_invoke. unfold contract, outcome, calls.
  destruct (returns_early fl m) as [early|] eqn:E.
  - simpl. intros -> _. left. destruct m; try discriminate. simpl in E.
    exists collection, document_list.
    split; [reflexivity|].
    destruct (default_arg VNone document_list); simpl in *;
      try (inversion E; reflexivity); try discriminate;
      destruct (_ <? 1)%Z; discriminate.
  - cbn [connected client db_name].
    destruct (fails_unawaited fl m) as [e'|] eqn:U.
    + simpl. intros H _. inversion H; subst. right.
      destruct m; try discriminate. destruct fl; [discriminate|].
      simpl in U. inversion U. eauto.
    + destruct (h _ _ s) as [r s1]. discriminate.
Qed.

Lemma local_failures_witness :
  exists c l,
    call_insert "c" (Some (VInt 5)) = call_insert c l
    /\ py_len (default_arg VNone l) = inl (TypeError "object has no len()").
Proof.
  pose proof (local_failures Sync RefDriver.handle RefDriver.empty_server
                (pymongo.mkClient 0) "db" (call_insert "c" (Some (VInt 5)))
                (TypeError "object has no len()") eq_refl eq_refl) as L.
  destruct L as [L | (c & p & F & _)]; [exact L | discriminate F].
Defined.

(** X3. No operation makes more than one driver call, whatever the driver
    answers; on a constructed object it makes none exactly when it is an
    [insert] that ends at its guard or the asynchronous [aggregate]. *)
Theorem one_call_at_most
    (fl : flavour) {S : Type} (h : pymongo.handler S) (s : S) (self : instance)
    (cl : pymongo.client) (dbn : string) (m : method_call) :
  (List.length (calls (run_method h (invoke fl m) self s)) <= 1)%nat
  /\ (calls (run_method h (invoke fl m) (connected cl dbn) s) = []
      <-> returns_early fl m <> None \/ fails_unawaited fl m <> None).
Proof.
  rewrite !run_invoke. unfold contract, calls.
  destruct (returns_early fl m) as [early|]; simpl.
  - split; [lia|]. split; [left; discriminate | reflexivity].
  - destruct (fails_unawaited fl m) as [e|]; split.
    + destruct self as [[cl0|] [dbn0|]]; simpl; lia.
    + split; [right; discriminate | reflexivity].
    + destruct self as [[cl0|] [dbn0|]]; simpl; try lia.
      destruct (h _ _ s) as [r s1]. simpl. lia.
    + destruct (h _ _ s) as [r s1]. simpl.
      split; [discriminate | intros [N|N]; congruence].
Qed.

(** ** The guard of [insert] *)

(** X4. [insert] looks only at the length of its argument, never at its
    type.  An argument without a length raises the [TypeError] of [len]
    before any attribute of the object is read; one of length zero (an
    empty list, dict or string) gets the empty result without a driver
    call; any other, list or not, is handed to [insert_many] as it is. *)
Theorem insert_guard_by_length
    (fl : flavour) {S : Type} (h : pymongo.handler S) (s : S) (c : string)
    (v : value) :
  v <> VNone ->
  match py_len v with
  | inl e =>
      forall self,
        run_method h (invoke fl (call_insert c (Some v))) self s = (inl e, self, s, [])
  | inr n =>
      if (n <? 1)%Z then
        forall self,
          run_method h (invoke fl (call_insert c (Some v))) self s
          = (inr (empty_result fl), self, s, [])
      else
        forall cl dbn,
          calls (run_method h (invoke fl (call_insert c (Some v))) (connected cl dbn) s)
          = [pymongo.ev (pymongo.insert_many (handle_of cl dbn c) v)]
  end.
Proof.
  intros Hv.
  assert (E : returns_early fl (call_insert c (Some v))
              = match py_len v with
                | inl e => Some (inl e)
                | inr n => if (n <? 1)%Z then Some (inr (empty_result fl)) else None
                end)
    by (destruct v; try reflexivity; contradiction).
  destruct (py_len v) as [e|n].
  - intros self. rewrite run_invoke. unfold contract. rewrite E. reflexivity.
  - destruct (n <? 1)%Z.
    + intros self. rewrite run_invoke. unfold contract. rewrite E. reflexivity.
    + intros cl dbn. rewrite run_invoke. unfold contract. rewrite E.
      cbn [connected client db_name]. unfold calls, handle_of. simpl.
      destruct (h _ _ s) as [r s1]. reflexivity.
Qed.

Lemma insert_guard_by_length_witness :
  let one := VDict [("a"%string, VInt 1)] in
  calls (run_method RefDriver.handle (invoke Sync (call_insert "c" (Some one)))
           (connected (pymongo.mkClient 0) "db") RefDriver.empty_server)
  = [pymongo.ev (pymongo.insert_many
                   (handle_of (pymongo.mkClient 0) "db" "c") one)].
Proof.
  intros one.
  assert (N : one <> VNone) by discriminate.
  exact (insert_guard_by_length Sync RefDriver.handle RefDriver.empty_server "c"
           one N (pymongo.mkClient 0) "db").
Defined.

(** ** Synchronous and asynchronous, side by side *)

Lemma returns_early_flavour (m : method_call) :
  match returns_early Sync m, returns_early Async m with
  | None, None => True
  | Some (inl e), Some (inl e') => e = e'
  | Some (inr _), Some (inr _) => insert_skipped m = true
  | _, _ => False
  end.
Proof.
  destruct m; try exact I. simpl. unfold nothing_to_insert.
  destruct (default_arg VNone document_list); simpl; try reflexivity;
    destruct (_ <? 1)%Z; reflexivity.
Qed.

(** X5. Under the same driver, a method call other than [aggregate] makes
    the same driver calls on the synchronous and on the asynchronous
    facade and leaves the same object and the same driver state; it also
    returns the same value or raises the same exception, except for the
    value of an [insert] that ends at its guard.  [aggregate] is where the
    two part: on a constructed object the asynchronous one raises a
    [TypeError] with no driver call, whatever the pipeline.  [collection]
    is the same on both. *)
Theorem sync_async_same_run
    {S : Type} (h : pymongo.handler S) (s : S) (self : instance) (m : method_call)
    (name : string) :
  let rs := run_method h (invoke Sync m) self s in
  let ra := run_method h (invoke Async m) self s in
  (fails_unawaited Async m = None ->
   calls rs = calls ra
   /\ final_self rs = final_self ra
   /\ final_state rs = final_state ra
   /\ (insert_skipped m = false -> rs = ra))
  /\ (forall c p cl dbn,
        run_method h (invoke Async (call_aggregate c p)) (connected cl dbn) s
        = (inl (TypeError
                  "'async for' requires an object with __aiter__ method, got coroutine"),
           connected cl dbn, s, []))
  /\ run_method h (invoke_collection Sync name) self s
     = run_method h (invoke_collection Async name) self s.
Proof.
  intros rs ra. subst rs ra. split; [|split].
  - intros U. rewrite !run_invoke. unfold contract.
    rewrite U, sync_never_unawaited.
    pose proof (returns_early_flavour m) as F.
    destruct (returns_early Sync m) as [[e|v]|], (returns_early Async m) as [[e'|v']|];
      try contradiction; subst; repeat split; try reflexivity; congruence.
  - intros c p cl dbn. rewrite run_invoke. reflexivity.
  - reflexivity.
Qed.

Lemma sync_async_same_run_witness :
  let cl := pymongo.mkClient 0 in
  let srv := RefDriver.set_docs RefDriver.empty_server (handle_of cl "db" "c")
               [[("_id"%string, VInt 1)]; [("_id"%string, VInt 2)]] in
  let m := call_find "c" None None None (Some 1) None in
  run_method RefDriver.handle (invoke Sync m) (connected cl "db") srv
  = run_method RefDriver.handle (invoke Async m) (connected cl "db") srv.
Proof.
  intros cl srv m.
  apply (proj1 (sync_async_same_run RefDriver.handle srv (connected cl "db") m "c"));
    reflexivity.
Defined.

(** ** Construction, and what follows it *)

(** X6. [__init__] sets both attributes or none, and what it sets is the
    client that the constructor returned.  With a scheme that is not one
    of the two it raises with no driver call and the object as it was;
    with a valid scheme, when the client constructor raises, it raises the
    same exception and the object is as it was; when the constructor
    returns a client, the object holds that client and the database name
    given.  Leaving [service] out is passing "mongodb". *)
Theorem construction_all_or_nothing
    (fl : flavour) {S : Type} (h : pymongo.handler S) (s : S) (self : instance)
    (db_address dbn db_username db_password : string) (service : option string)
    (kwargs : list (string * value)) :
  let scheme := default_arg "mongodb"%string service in
  let ctor := client_constructor fl
                (connection_uri scheme db_username db_password db_address dbn) kwargs in
  let r := run_method h
             (invoke_init fl db_address dbn db_username db_password service kwargs)
             self s in
  (scheme <> "mongodb"%string -> scheme <> "mongodb+srv"%string ->
   r = (inl InvalidConfiguration, self, s, []))
  /\ (scheme = "mongodb"%string \/ scheme = "mongodb+srv"%string ->
      (forall e s1, h _ ctor s = (inl e, s1) ->
         r = (inl e, self, s1, [pymongo.ev ctor]))
      /\ (forall cl s1, h _ ctor s = (inr cl, s1) ->
            r = (inr VNone, connected cl dbn, s1, [pymongo.ev ctor])))
  /\ (final_self r = self
      \/ exists cl s1, h _ ctor s = (inr cl, s1) /\ final_self r = connected cl dbn)
  /\ (service = None ->
      r = run_method h
            (invoke_init fl db_address dbn db_username db_password
               (Some "mongodb"%string) kwargs) self s).
Proof.
  intros scheme ctor r.
  assert (R : r = run_method h
                    (invoke_init fl db_address dbn db_username db_password
                       (Some scheme) kwargs) self s).
  { subst r scheme. destruct service; [reflexivity|].
    rewrite init_default_scheme. reflexivity. }
  split; [|split; [|split]].
  - intros N1 N2. rewrite R. apply run_init_rejected.
    destruct (str_in _ _) eqn:E; [|reflexivity].
    apply str_in_schemes in E. destruct E; contradiction.
  - intros V. rewrite R, run_init_accepted by (apply str_in_schemes; tauto).
    fold ctor. split.
    + intros e s1 H. rewrite H. reflexivity.
    + intros cl s1 H. rewrite H. reflexivity.
  - rewrite R. destruct (str_in scheme ["mongodb+srv"; "mongodb"]%string) eqn:E.
    + rewrite (run_init_accepted _ _ _ _ _ _ _ _ _ _ E). fold ctor.
      destruct (h _ ctor s) as [[e|cl] s1] eqn:H.
      * left. reflexivity.
      * right. exists cl, s1. split; reflexivity.
    + rewrite (run_init_rejected _ _ _ _ _ _ _ _ _ _ E). left. reflexivity.
  - intros ->. exact R.
Qed.



(** ** Runs of operations *)

Lemma perform_calls_at_most_one
    {S : Type} (h : pymongo.handler S) (fl : flavour) (op : operation)
    (self : instance) (s : S) :
  (List.length (perform h fl op self s).2 <= 1)%nat.
Proof.
  destruct op as [m | name |]; cbn [perform snd].
  - rewrite run_invoke. unfold contract, calls.
    destruct (returns_early fl m); [simpl; lia|].
    destruct self as [[cl|] [dbn|]]; simpl; try lia.
    destruct (fails_unawaited fl m); [simpl; lia|].
    destruct (h _ _ s) as [r s1]. simpl. lia.
  - destruct self as [[cl|] [dbn|]], fl; simpl; lia.
  - destruct self as [[cl|] [dbn|]], fl; unfold_facade; simpl; try lia;
      destruct (h _ _ s) as [[e|[]] s1]; simpl; lia.
Qed.

Lemma perform_own_events
    {S : Type} (h : pymongo.handler S) (fl : flavour) (op : operation)
    (cl : pymongo.client) (dbn : string) (s : S) :
  Forall (own_event cl dbn) (perform h fl op (connected cl dbn) s).2.
Proof.
  destruct op as [m | name |]; cbn [perform snd].
  - rewrite run_invoke. unfold contract, calls.
    destruct (returns_early fl m); [constructor|].
    cbn [connected client db_name].
    destruct (fails_unawaited fl m); [constructor|].
    destruct (h _ _ s) as [r s1]. simpl.
    constructor; [|constructor]. destruct m; reflexivity.
  - destruct fl; constructor.
  - destruct fl; unfold_facade; simpl; [|constructor].
    destruct (h _ _ s) as [[e|[]] s1]; simpl;
      (constructor; [reflexivity | constructor]).
Qed.

(** X8. A run of operations on one object makes at most as many driver
    calls as it has operations: no operation is retried, split into
    several round trips or preceded by a check of the connection. *)
Theorem session_calls_bounded
    (fl : flavour) {S : Type} (h : pymongo.handler S) (ops : list operation)
    (self : instance) (s : S) :
  (List.length (session h fl ops self s).2 <= List.length ops)%nat.
Proof.
  revert self s. induction ops as [|op ops IH]; intros self s; [simpl; lia|].
  cbn [session].
  pose proof (perform_calls_at_most_one h fl op self s) as P.
  destruct (perform h fl op self s) as [[self1 s1] log1].
  specialize (IH self1 s1).
  destruct (session h fl ops self1 s1) as [[self2 s2] log2].
  cbn [snd] in *. rewrite length_app. cbn [List.length]. lia.
Qed.

(** X9. Whatever operations are run on a constructed object, every driver
    call they make is either the closing of the object's own client or a
    call on a collection of the object's own database: a constructed
    object never builds another client and never addresses another
    database. *)
Theorem session_own_events
    (fl : flavour) {S : Type} (h : pymongo.handler S) (ops : list operation)
    (cl : pymongo.client) (dbn : string) (s : S) :
  Forall (own_event cl dbn) (session h fl ops (connected cl dbn) s).2.
Proof.
  revert s. induction ops as [|op ops IH]; intros s; [constructor|].
  cbn [session].
  pose proof (perform_own_events h fl op cl dbn s) as P.
  pose proof (perform_keeps_self h fl op (connected cl dbn) s) as K.
  destruct (perform h fl op (connected cl dbn) s) as [[self1 s1] log1].
  cbn [fst snd] in *. subst self1. specialize (IH s1).
  destruct (session h fl ops (connected cl dbn) s1) as [[self2 s2] log2].
  cbn [snd] in *. apply Forall_app. split; assumption.
Qed.

(** X10. [close] keeps the attributes of the object, and no method looks
    at whether the client was closed: a method called after [close] on the
    synchronous facade is forwarded to the same client as before, and what
    comes of it is the driver's answer. *)
Theorem close_then_operate
    {S : Type} (h : pymongo.handler S) (s : S)
    (cl : pymongo.client) (dbn : string) (m : method_call) :
  returns_early Sync m = None ->
  run_method h (let* _ := MongoAPI.close in invoke Sync m)%api (connected cl dbn) s
  = match h _ (pymongo.close cl) s with
    | (inl e, s0) => (inl e, connected cl dbn, s0, [pymongo.ev (pymongo.close cl)])
    | (inr _, s0) =>
        let '(r, s1) := h _ (forwarded_call cl dbn m) s0 in
        (returned (forwarded_value cl dbn m) r, connected cl dbn, s1,
         [pymongo.ev (pymongo.close cl); pymongo.ev (forwarded_call cl dbn m)])
    end.
Proof.
  intros E. rewrite run_bind.
  assert (C : run_method h MongoAPI.close (connected cl dbn) s
              = match h _ (pymongo.close cl) s with
                | (inl e, s0) =>
                    (inl e, connected cl dbn, s0, [pymongo.ev (pymongo.close cl)])
                | (inr _, s0) =>
                    (inr VNone, connected cl dbn, s0, [pymongo.ev (pymongo.close cl)])
                end).
  { unfold_facade. simpl. destruct (h _ _ s) as [[e|[]] s0]; reflexivity. }
  rewrite C. destruct (h _ (pymongo.close cl) s) as [[e|u] s0]; [reflexivity|].
  rewrite run_invoke. unfold contract. rewrite E.
  cbn [connected client db_name]. rewrite sync_never_unawaited.
  unfold forwarded_call, forwarded_value, handle_of.
  destruct (h _ _ s0) as [r s1]. reflexivity.
Qed.

Lemma close_then_operate_witness :
  let cl := pymongo.mkClient 0 in
  let srv := RefDriver.set_docs RefDriver.empty_server (handle_of cl "db" "c")
               [[("_id"%string, VInt 1)]; [("_id"%string, VInt 2)]] in
  run_method RefDriver.handle
    (let* _ := MongoAPI.close in invoke Sync (call_count "c" None))%api
    (connected cl "db") srv
  = (inr (VInt 2), connected cl "db", srv,
     [pymongo.ev (pymongo.close cl);
      pymongo.ev (pymongo.count_documents (handle_of cl "db" "c") (VDict []))]).
Proof.
  intros cl srv.
  rewrite (close_then_operate RefDriver.handle srv cl "db" (call_count "c" None));
    reflexivity.
Defined.

(** ** Aggregating, counting and deleting *)

(** X11. [aggregate] of the synchronous facade, with the pipeline left out
    or given as [None], runs as [aggregate] with the empty pipeline [[]];
    with a pipeline given it makes one driver call, on that pipeline as it
    is, and returns a list of every document of the cursor the driver
    hands back, in the cursor's order.  [aggregate] of the asynchronous
    facade never awaits the driver's coroutine: on a constructed object it
    raises a [TypeError] for every pipeline, with no driver call and the
    driver state untouched. *)
Theorem aggregate_materializes
    {S : Type} (h : pymongo.handler S) (s : S)
    (cl : pymongo.client) (dbn c : string) :
  let self := connected cl dbn in
  let run_with fl p := run_method h (invoke fl (call_aggregate c p)) self s in
  run_with Sync None = run_with Sync (Some (VList []))
  /\ run_with Sync (Some VNone) = run_with Sync (Some (VList []))
  /\ (forall pipeline : value,
        pipeline <> VNone ->
        let q := pymongo.aggregate (handle_of cl dbn c) pipeline in
        calls (run_with Sync (Some pipeline)) = [pymongo.ev q]
        /\ forall cur s1, h _ q s = (inr cur, s1) ->
             run_with Sync (Some pipeline)
             = (inr (VList (map VDict (pymongo.remaining cur))), self, s1,
                [pymongo.ev q]))
  /\ forall pipeline : option value,
       run_with Async pipeline
       = (inl (TypeError
                 "'async for' requires an object with __aiter__ method, got coroutine"),
          self, s, []).
Proof.
  intros self run_with. subst self run_with. cbv beta.
  split; [rewrite !run_invoke; reflexivity|].
  split; [rewrite !run_invoke; reflexivity|].
  split; [|intros pipeline; rewrite run_invoke; reflexivity].
  intros pipeline N q. subst q. rewrite run_invoke.
  unfold contract, connected, handle_of, calls. simpl.
  assert (E : or_empty (VList []) pipeline = pipeline)
    by (destruct pipeline; try reflexivity; contradiction).
  unfold default_arg. rewrite E. split.
  - destruct (h _ _ s) as [r s1]. reflexivity.
  - intros cur s1 H. rewrite H. reflexivity.
Qed.

(** X12. [count] with the filter left out, or given as [None], runs as
    [count] with the empty filter [{}].  With a filter given it makes one
    driver call, on that filter as it is, and returns the number the
    driver counted. *)
Theorem count_forwards_filter
    (fl : flavour) {S : Type} (h : pymongo.handler S) (s : S)
    (cl : pymongo.client) (dbn c : string) :
  let self := connected cl dbn in
  let run_with f := run_method h (invoke fl (call_count c f)) self s in
  run_with None = run_with (Some (VDict []))
  /\ run_with (Some VNone) = run_with (Some (VDict []))
  /\ forall filter_dict : value,
       filter_dict <> VNone ->
       let q := pymongo.count_documents (handle_of cl dbn c) filter_dict in
       calls (run_with (Some filter_dict)) = [pymongo.ev q]
       /\ forall n s1, h _ q s = (inr n, s1) ->
            run_with (Some filter_dict) = (inr (VInt n), self, s1, [pymongo.ev q]).
Proof.
  intros self run_with. subst self run_with. cbv beta.
  split; [rewrite !run_invoke; reflexivity|].
  split; [rewrite !run_invoke; reflexivity|].
  intros filter_dict N q. subst q. rewrite run_invoke.
  unfold contract, connected, handle_of, calls. simpl.
  assert (E : or_empty (VDict []) filter_dict = filter_dict)
    by (destruct filter_dict; try reflexivity; contradiction).
  unfold default_arg. rewrite E. split.
  - destruct (h _ _ s) as [r s1]. reflexivity.
  - intros n s1 H. rewrite H. reflexivity.
Qed.

(** X13. [delete] and [delete_one] hand the filter they are given to
    [delete_many] and [delete_one] of the driver, in one call, and return
    the [deleted_count] of the driver's result. *)
Theorem delete_returns_deleted_count
    (fl : flavour) {S : Type} (h : pymongo.handler S) (s : S)
    (cl : pymongo.client) (dbn c : string) (filter_dict : value) :
  let self := connected cl dbn in
  let many := pymongo.delete_many (handle_of cl dbn c) filter_dict in
  let one := pymongo.delete_one (handle_of cl dbn c) filter_dict in
  (forall res s1, h _ many s = (inr res, s1) ->
     run_method h (invoke fl (call_delete c (Some filter_dict))) self s
     = (inr (VInt (pymongo.deleted_count res)), self, s1, [pymongo.ev many]))
  /\ (forall res s1, h _ one s = (inr res, s1) ->
        run_method h (invoke fl (call_delete_one c (Some filter_dict))) self s
        = (inr (VInt (pymongo.deleted_count res)), self, s1, [pymongo.ev one])).
Proof.
  intros self many one. subst self many one.
  split; intros res s1 H; rewrite run_invoke;
    unfold contract, connected, handle_of in *; simpl in *; rewrite H; reflexivity.
Qed.

Lemma aggregate_materializes_witness :
  let cl := pymongo.mkClient 0 in
  let docs : list document := [[("_id"%string, VInt 1)]; [("_id"%string, VInt 2)]] in
  let srv := RefDriver.set_docs RefDriver.empty_server (handle_of cl "db" "c") docs in
  run_method RefDriver.handle (invoke Sync (call_aggregate "c" None))
    (connected cl "db") srv
  = (inr (VList (map VDict docs)), connected cl "db", srv,
     [pymongo.ev (pymongo.aggregate (handle_of cl "db" "c") (VList []))]).
Proof.
  intros cl docs srv.
  pose proof (aggregate_materializes RefDriver.handle srv cl "db" "c") as A.
  cbv zeta in A. destruct A as (A0 & _ & A & _).
  rewrite A0.
  apply (proj2 (A (VList []) ltac:(discriminate)) (pymongo.mkCursor docs) srv).
  vm_compute. reflexivity.
Defined.

Lemma count_forwards_filter_witness :
  let cl := pymongo.mkClient 0 in
  let srv := RefDriver.set_docs RefDriver.empty_server (handle_of cl "db" "c")
               [[("_id"%string, VInt 1); ("a"%string, VInt 1)];
                [("_id"%string, VInt 2); ("a"%string, VInt 2)]] in
  let only := VDict [("a"%string, VInt 1)] in
  run_method RefDriver.handle (invoke Sync (call_count "c" (Some only)))
    (connected cl "db") srv
  = (inr (VInt 1), connected cl "db", srv,
     [pymongo.ev (pymongo.count_documents (handle_of cl "db" "c") only)]).
Proof.
  intros cl srv only.
  pose proof (count_forwards_filter Sync RefDriver.handle srv cl "db" "c") as A.
  cbv zeta in A. destruct A as (_ & _ & A).
  apply (proj2 (A only ltac:(discriminate)) 1 srv).
  vm_compute. reflexivity.
Defined.

Lemma delete_returns_deleted_count_witness :
  let cl := pymongo.mkClient 0 in
  let srv := RefDriver.set_docs RefDriver.empty_server (handle_of cl "db" "c")
               [[("_id"%string, VInt 1); ("a"%string, VInt 1)];
                [("_id"%string, VInt 2); ("a"%string, VInt 1)];
                [("_id"%string, VInt 3); ("a"%string, VInt 2)]] in
  let only := VDict [("a"%string, VInt 1)] in
  outcome (run_method RefDriver.handle (invoke Sync (call_delete "c" (Some only)))
             (connected cl "db") srv)
  = inr (VInt 2)
  /\ outcome (run_method RefDriver.handle
                (invoke Sync (call_delete_one "c" (Some only))) (connected cl "db") srv)
     = inr (VInt 1).
Proof.
  intros cl srv only. split.
  - erewrite (proj1 (delete_returns_deleted_count Sync RefDriver.handle srv cl
                       "db" "c" only) (pymongo.mkDeleteResult 2));
      [reflexivity | vm_compute; reflexivity].
  - erewrite (proj2 (delete_returns_deleted_count Sync RefDriver.handle srv cl
                       "db" "c" only) (pymongo.mkDeleteResult 1));
      [reflexivity | vm_compute; reflexivity].
Defined.

(** ** One operation after another *)

(** X14. Two method calls in a row that reach the driver (any but an
    [insert] that ends at its guard and the asynchronous [aggregate]) reach
    it in the order they are written, the second on the driver state that
    the first left: nothing is buffered, merged or reordered.  When the
    first raises, the second is not run. *)
Theorem two_operations_in_order
    (fl : flavour) {S : Type} (h : pymongo.handler S) (s : S)
    (cl : pymongo.client) (dbn : string) (m1 m2 : method_call) :
  returns_early fl m1 = None ->
  fails_unawaited fl m1 = None ->
  returns_early fl m2 = None ->
  fails_unawaited fl m2 = None ->
  run_method h (let* _ := invoke fl m1 in invoke fl m2)%api (connected cl dbn) s
  = match h _ (forwarded_call cl dbn m1) s with
    | (inl e, s1) =>
        (inl e, connected cl dbn, s1, [pymongo.ev (forwarded_call cl dbn m1)])
    | (inr _, s1) =>
        let '(r, s2) := h _ (forwarded_call cl dbn m2) s1 in
        (returned (forwarded_value cl dbn m2) r, connected cl dbn, s2,
         [pymongo.ev (forwarded_call cl dbn m1); pymongo.ev (forwarded_call cl dbn m2)])
    end.
Proof.
  intros E1 U1 E2 U2. rewrite run_bind, run_invoke. unfold contract. rewrite E1.
  cbn [connected client db_name]. rewrite U1.
  unfold forwarded_call, forwarded_value, handle_of.
  destruct (h _ _ s) as [[e|x] s1]; [reflexivity|].
  cbn [returned]. rewrite run_invoke. unfold contract. rewrite E2.
  cbn [connected client db_name]. rewrite U2.
  destruct (h _ _ s1) as [r s2]. reflexivity.
Qed.

Lemma two_operations_in_order_witness :
  let cl := pymongo.mkClient 0 in
  let doc := VDict [("_id"%string, VInt 9)] in
  exists s2,
    run_method RefDriver.handle
      (let* _ := invoke Sync (call_insert_one "c" (Some doc)) in
       invoke Sync (call_count "c" None))%api
      (connected cl "db") RefDriver.empty_server
    = (inr (VInt 1), connected cl "db", s2,
       [pymongo.ev (pymongo.insert_one (handle_of cl "db" "c") doc);
        pymongo.ev (pymongo.count_documents (handle_of cl "db" "c") (VDict []))]).
Proof.
  intros cl doc. eexists.
  rewrite (two_operations_in_order Sync RefDriver.handle RefDriver.empty_server cl
             "db" (call_insert_one "c" (Some doc)) (call_count "c" None));
    reflexivity.
Defined.
